(** * Elibrary: the borrow/return workflow and the book-copy inventory

    A shallow embedding of the state transforms of the two React components
    that own the library data:

    - [BorrowManager]: [handleBorrow], [handleReturn], [filteredBorrows] and
      the parts of its render function that decide which actions are offered
      (the book selector of the borrow form, the "Return Book" button);
    - [BookManager]: [handleAddBook], [handleUpdateBook], [handleEditBook],
      [handleDeleteBook], and the submission of its member form.

    Both components keep [books] and [users] (and [BorrowManager] also
    [borrows]) in [usePersistentState], which mirrors the value into
    [localStorage] after every change and reads it back on mount.  [App]
    mounts one component at a time, so the three collections are modelled as
    one shared store inside [State].

    Numbers are JavaScript integers well below 2^53 and are modelled by [Z].
    JavaScript strings are modelled by [string]; [toLowerCase] is modelled on
    the ASCII letters. *)

From Stdlib Require Import ZArith List Bool Lia.
From Stdlib Require Import Ascii String.
From Stdlib Require Import DecimalString DecimalZ DecimalPos DecimalN Decimal.
Import ListNotations.

Local Open Scope Z_scope.

(* ------------------------------------------------------------------------- *)
(** ** JavaScript string and number primitives *)

Module Js.

(** [c.toLowerCase()] on one ASCII code unit. *)
Definition lowerChar (c : ascii) : ascii :=
  let n := nat_of_ascii c in
  if (Nat.leb 65 n && Nat.leb n 90)%bool then ascii_of_nat (n + 32) else c.

(** [String.prototype.toLowerCase]. *)
Fixpoint toLowerCase (s : string) : string :=
  match s with
  | EmptyString => EmptyString
  | String c s' => String (lowerChar c) (toLowerCase s')
  end.

(** [s.startsWith(q)]. *)
Fixpoint startsWith (s q : string) {struct q} : bool :=
  match q, s with
  | EmptyString, _ => true
  | String _ _, EmptyString => false
  | String a q', String b s' => (Ascii.eqb a b && startsWith s' q')%bool
  end.

(** [String.prototype.includes]: [q] occurs in [s] at some position. *)
Fixpoint includes (s q : string) : bool :=
  (startsWith s q ||
   match s with
   | EmptyString => false
   | String _ s' => includes s' q
   end)%bool.

(** [String(n)] for an integer [n]: decimal digits, [-] for negatives. *)
Definition numberToString (n : Z) : string :=
  NilEmpty.string_of_int (Z.to_int n).

Definition isDigit (c : ascii) : bool :=
  let n := nat_of_ascii c in (Nat.leb 48 n && Nat.leb n 57)%bool.

(** The white space [parseInt] strips: space, tab, LF, VT, FF, CR. *)
Definition isWhiteSpace (c : ascii) : bool :=
  let n := nat_of_ascii c in
  (Nat.eqb n 32 || (Nat.leb 9 n && Nat.leb n 13))%bool.

Fixpoint trimStart (s : string) : string :=
  match s with
  | String c s' => if isWhiteSpace c then trimStart s' else s
  | EmptyString => EmptyString
  end.

(** The longest prefix of decimal digits. *)
Fixpoint digitPrefix (s : string) : string :=
  match s with
  | String c s' => if isDigit c then String c (digitPrefix s') else EmptyString
  | EmptyString => EmptyString
  end.

Definition digitsValue (ds : string) : option Z :=
  match ds with
  | EmptyString => None
  | _ => option_map Z.of_uint (NilEmpty.uint_of_string ds)
  end.

(** [parseInt(s)] with the default radix: leading white space, an optional
    sign, then the longest run of decimal digits; [None] is [NaN].  (The
    [0x] prefix is not modelled: the strings parsed here are option values
    produced by [String(id)].) *)
Definition parseInt (s : string) : option Z :=
  match trimStart s with
  | String "-"%char s' => option_map Z.opp (digitsValue (digitPrefix s'))
  | String "+"%char s' => digitsValue (digitPrefix s')
  | s' => digitsValue (digitPrefix s')
  end.

(** [x === parseInt(..)] for a number [x]: [NaN] is equal to nothing. *)
Definition numEq (x : Z) (y : option Z) : bool :=
  match y with
  | Some k => x =? k
  | None => false
  end.

End Js.

(* ------------------------------------------------------------------------- *)
(** ** ECMAScript time values

    A [Date] holds a time value: milliseconds since 1970-01-01T00:00:00Z.
    The date-only strings the program stores ([toISOString().split('T')[0]],
    the form [YYYY-MM-DD]) are represented by the day number they denote
    (days since 1970-01-01, in UTC). *)

Module JsDate.

Definition msPerDay : Z := 86400000.
Definition msPerHour : Z := 3600000.
Definition msPerMinute : Z := 60000.

(** [Day(t)] and [TimeWithinDay(t)] of the specification. *)
Definition Day (t : Z) : Z := t / msPerDay.
Definition TimeWithinDay (t : Z) : Z := t mod msPerDay.

(** [MakeDate(day, time)]. *)
Definition MakeDate (day time : Z) : Z := day * msPerDay + time.

(** Year, month (1..12) and day of the month (1..31) of a day number, in the
    proleptic Gregorian calendar. *)
Definition civil (z : Z) : Z * Z * Z :=
  let z := z + 719468 in
  let era := z / 146097 in
  let doe := z - era * 146097 in
  let yoe := (doe - doe / 1460 + doe / 36524 - doe / 146096) / 365 in
  let y := yoe + era * 400 in
  let doy := doe - (365 * yoe + yoe / 4 - yoe / 100) in
  let mp := (5 * doy + 2) / 153 in
  let d := doy - (153 * mp + 2) / 5 + 1 in
  let m := if mp <? 10 then mp + 3 else mp - 9 in
  (if m <=? 2 then y + 1 else y, m, d).

(** [DateFromTime(t)]: the day of the month. *)
Definition DateFromTime (t : Z) : Z := snd (civil (Day t)).

(** The day number of the first day of the month that contains [t]. *)
Definition monthStartDay (t : Z) : Z := Day t - DateFromTime t + 1.

(** [MakeDay(YearFromTime(t), MonthFromTime(t), dt)]: the day numbered [dt]
    counted from the first of the month of [t]; [dt] may run past the end of
    the month. *)
Definition MakeDayInMonthOf (t dt : Z) : Z := monthStartDay t + dt - 1.

(** The host's time zone: [LocalTZA(t, isUTC)], the offset of local time
    from UTC in milliseconds, at the UTC instant [t] ([isUTC = true]) or at
    the local time [t] ([isUTC = false]). *)
Definition TimeZone : Type := Z -> bool -> Z.

Definition LocalTime (tz : TimeZone) (t : Z) : Z := t + tz t true.
Definition UTC (tz : TimeZone) (t : Z) : Z := t - tz t false.

(** [date.getDate()]: the day of the month in local time. *)
Definition getDate (tz : TimeZone) (t : Z) : Z := DateFromTime (LocalTime tz t).

(** [date.setDate(dt)]: the new time value. *)
Definition setDate (tz : TimeZone) (t dt : Z) : Z :=
  let lt := LocalTime tz t in
  UTC tz (MakeDate (MakeDayInMonthOf lt dt) (TimeWithinDay lt)).

(** [date.toISOString().split('T')[0]]: the UTC calendar date. *)
Definition toISODate (t : Z) : Z := Day t.

(** [new Date("YYYY-MM-DD")]: a date-only string is midnight UTC. *)
Definition parseISODate (d : Z) : Z := d * msPerDay.

(** A zone with one offset all year. *)
Definition fixedZone (offset : Z) : TimeZone := fun _ _ => offset.

(** America/New_York during 2024: UTC-5, and UTC-4 from 2024-03-10 07:00Z
    (02:00 local) to 2024-11-03 06:00Z (02:00 local). *)
Definition newYork2024 : TimeZone := fun t isUTC =>
  if isUTC
  then if (1710054000000 <=? t) && (t <? 1730613600000)
       then -4 * msPerHour else -5 * msPerHour
  else if (1710036000000 <=? t) && (t <? 1730599200000)
       then -4 * msPerHour else -5 * msPerHour.

End JsDate.

(* ------------------------------------------------------------------------- *)
(** ** Data model: the records of [lib-data.json] and of the components *)

Module Book.
Record t : Type := mk
  { id : Z;
    title : string;
    author : string;
    genre : string;
    isbn : string;
    year : Z;
    count : Z;
    totalCopies : Z }.

(** [{ ...book, count: c }]. *)
Definition withCount (b : t) (c : Z) : t :=
  mk (id b) (title b) (author b) (genre b) (isbn b) (year b) c (totalCopies b).
End Book.

(** A member identifier is a JSON value: a number ([Date.now()] for members
    added through the UI) or a string. *)
Inductive JsId : Type :=
  | IdNum (n : Z)
  | IdStr (s : string).

Module User.
Record t : Type := mk
  { id : JsId;
    name : string;
    email : string;
    phone : string;
    memberSince : string;
    borrowedBooks : list Z }.
End User.

(** [status: 'active' | 'returned']. *)
Inductive Status : Type := active | returned.

Module Borrow.
Record t : Type := mk
  { id : Z;
    bookId : option Z;          (* [parseInt(selectedBook)], [None] is NaN *)
    userId : string;
    userName : option string;   (* [None] is undefined *)
    borrowDate : Z;
    dueDate : Z;
    returnDate : option Z;      (* [None] is null *)
    status : Status }.

(** [{ ...b, returnDate: today, status: 'returned' }]. *)
Definition markReturned (b : t) (today : Z) : t :=
  mk (id b) (bookId b) (userId b) (userName b) (borrowDate b) (dueDate b)
     (Some today) returned.
End Borrow.

(** [localFormData] of the member form. *)
Module UserForm.
Record t : Type := mk
  { name : string;
    email : string;
    phone : string;
    memberSince : string }.
End UserForm.

(** [formData], the book form of [BookManager]. *)
Module Form.
Record t : Type := mk
  { title : string;
    author : string;
    genre : string;
    isbn : string;
    year : Z;
    count : Z }.
End Form.

Definition GENRES : list string :=
  [ "Fiction"; "Non-Fiction"; "Science Fiction"; "Mystery"; "Romance";
    "Fantasy"; "Biography"; "History"; "Children"; "Self-Help"; "Other" ]%string.

(** [initialFormState]; [thisYear] is [new Date().getFullYear()]. *)
Definition initialFormState (thisYear : Z) : Form.t :=
  Form.mk "" "" (hd ""%string GENRES) "" thisYear 1.

(** The persisted collections together with the component state the handlers
    read and write. *)
Record State : Type := mkState
  { books : list Book.t;
    users : list User.t;
    borrows : list Borrow.t;
    error : option string;
    (* BorrowManager *)
    showBorrowForm : bool;
    searchQuery : string;
    filter : string;
    selectedUser : string;
    selectedBook : string;
    borrowDuration : Z;
    (* BookManager *)
    showAddForm : bool;
    editingBook : option Book.t;
    formData : Form.t }.

Definition setBooks (f : list Book.t -> list Book.t) (st : State) : State :=
  mkState (f (books st)) (users st) (borrows st) (error st)
          (showBorrowForm st) (searchQuery st) (filter st) (selectedUser st)
          (selectedBook st) (borrowDuration st)
          (showAddForm st) (editingBook st) (formData st).

Definition setUsers (f : list User.t -> list User.t) (st : State) : State :=
  mkState (books st) (f (users st)) (borrows st) (error st)
          (showBorrowForm st) (searchQuery st) (filter st) (selectedUser st)
          (selectedBook st) (borrowDuration st)
          (showAddForm st) (editingBook st) (formData st).

Definition setBorrows (f : list Borrow.t -> list Borrow.t) (st : State) : State :=
  mkState (books st) (users st) (f (borrows st)) (error st)
          (showBorrowForm st) (searchQuery st) (filter st) (selectedUser st)
          (selectedBook st) (borrowDuration st)
          (showAddForm st) (editingBook st) (formData st).

Definition setError (msg : string) (st : State) : State :=
  mkState (books st) (users st) (borrows st) (Some msg)
          (showBorrowForm st) (searchQuery st) (filter st) (selectedUser st)
          (selectedBook st) (borrowDuration st)
          (showAddForm st) (editingBook st) (formData st).

(** The three inputs of the borrow form and its visibility. *)
Definition setBorrowForm (show : bool) (user book : string) (days : Z)
    (st : State) : State :=
  mkState (books st) (users st) (borrows st) (error st)
          show (searchQuery st) (filter st) user book days
          (showAddForm st) (editingBook st) (formData st).

Definition setSearch (query flt : string) (st : State) : State :=
  mkState (books st) (users st) (borrows st) (error st)
          (showBorrowForm st) query flt (selectedUser st)
          (selectedBook st) (borrowDuration st)
          (showAddForm st) (editingBook st) (formData st).

(** The book form, the book being edited and the form's visibility. *)
Definition setBookForm (show : bool) (editing : option Book.t) (form : Form.t)
    (st : State) : State :=
  mkState (books st) (users st) (borrows st) (error st)
          (showBorrowForm st) (searchQuery st) (filter st) (selectedUser st)
          (selectedBook st) (borrowDuration st)
          show editing form.

(** [u.id === selectedUser]: strict equality with a string. *)
Definition idIsString (i : JsId) (s : string) : bool :=
  match i with
  | IdStr s' => String.eqb s' s
  | IdNum _ => false
  end.

(** The [value] attribute of an [<option value={x.id}>]. *)
Definition idToString (i : JsId) : string :=
  match i with
  | IdStr s => s
  | IdNum n => Js.numberToString n
  end.

(* ------------------------------------------------------------------------- *)
(** ** BorrowManager *)

(** [handleBorrow]: [today] is the time value of [new Date()], [stamp] the
    value of [Date.now()] used as the record identifier.  With integer
    inputs nothing in the [try] block throws, so the [catch] branch is not
    reached. *)
Definition handleBorrow (tz : JsDate.TimeZone) (today stamp : Z) (st : State)
    : State :=
  let dueDate :=
    JsDate.setDate tz today (JsDate.getDate tz today + borrowDuration st) in
  let newBorrow :=
    Borrow.mk stamp
              (Js.parseInt (selectedBook st))
              (selectedUser st)
              (option_map User.name
                 (find (fun u => idIsString (User.id u) (selectedUser st))
                       (users st)))
              (JsDate.toISODate today)
              (JsDate.toISODate dueDate)
              None
              active in
  let st1 := setBorrows (fun prev => newBorrow :: prev) st in
  let st2 :=
    setBooks (fun prev =>
      map (fun book =>
             if Js.numEq (Book.id book) (Js.parseInt (selectedBook st))
             then Book.withCount book (Book.count book - 1)
             else book) prev) st1 in
  setBorrowForm false "" "" 14 st2.

(** [handleReturn]: [now] is the time value of [new Date()]. *)
Definition handleReturn (now : Z) (borrowId : Z) (st : State) : State :=
  match find (fun b => Borrow.id b =? borrowId) (borrows st) with
  | None => setError "Failed to process return: Borrow record not found" st
  | Some borrow =>
      let today := JsDate.toISODate now in
      let st1 :=
        setBorrows (fun prev =>
          map (fun b =>
                 if Borrow.id b =? borrowId
                 then Borrow.markReturned b today
                 else b) prev) st in
      setBooks (fun prev =>
        map (fun book =>
               if Js.numEq (Book.id book) (Borrow.bookId borrow)
               then Book.withCount book (Book.count book + 1)
               else book) prev) st1
  end.

Definition isActive (b : Borrow.t) : bool :=
  match Borrow.status b with
  | active => true
  | returned => false
  end.

Definition isReturned (b : Borrow.t) : bool :=
  match Borrow.status b with
  | active => false
  | returned => true
  end.

(** [borrow.status === 'active' && new Date(borrow.dueDate) < new Date()],
    the test behind [overdueCount] and the "Overdue" badge of a row. *)
Definition overdueAt (now : Z) (b : Borrow.t) : bool :=
  isActive b && (JsDate.parseISODate (Borrow.dueDate b) <? now).

Definition overdueCount (now : Z) (st : State) : nat :=
  List.length (List.filter (overdueAt now) (borrows st)).

(** [matchesSearch] of the filter callback.  [None] is the [TypeError] of
    calling [toLowerCase] on an undefined [userName]; a book that is not
    found makes the right operand undefined, which is falsy. *)
Definition matchesSearch (bks : list Book.t) (query : string) (b : Borrow.t)
    : option bool :=
  match Borrow.userName b with
  | None => None
  | Some n =>
      Some
        (Js.includes (Js.toLowerCase n) (Js.toLowerCase query) ||
         match find (fun bk => Js.numEq (Book.id bk) (Borrow.bookId b)) bks with
         | Some bk =>
             Js.includes (Js.toLowerCase (Book.title bk)) (Js.toLowerCase query)
         | None => false
         end)
  end.

(** The callback of [borrows.filter(..)]. *)
Definition keepBorrow (now : Z) (bks : list Book.t) (query flt : string)
    (b : Borrow.t) : option bool :=
  match matchesSearch bks query b with
  | None => None
  | Some m =>
      Some
        (if String.eqb flt "all" then m
         else if String.eqb flt "active" then m && isActive b
         else if String.eqb flt "overdue" then m && isActive b &&
                (JsDate.parseISODate (Borrow.dueDate b) <? now)
         else if String.eqb flt "returned" then m && isReturned b
         else m)
  end.

(** [Array.prototype.filter] with a callback that may throw. *)
Fixpoint filterThrowing {A : Type} (f : A -> option bool) (l : list A)
    : option (list A) :=
  match l with
  | [] => Some []
  | x :: l' =>
      match f x with
      | None => None
      | Some keep =>
          match filterThrowing f l' with
          | None => None
          | Some r => Some (if keep then x :: r else r)
          end
      end
  end.

(** [filteredBorrows], computed on every render; [now] is [new Date()],
    taken as one instant for all the rows. *)
Definition filteredBorrows (now : Z) (st : State) : option (list Borrow.t) :=
  filterThrowing (keepBorrow now (books st) (searchQuery st) (filter st))
                 (borrows st).

(** The options of the book selector of the borrow form:
    [books.filter(book => book.count > 0)]. *)
Definition bookOptions (st : State) : list Book.t :=
  List.filter (fun book => 0 <? Book.count book) (books st).

(** The [disabled] attribute of the "New Borrow" button. *)
Definition newBorrowDisabled (st : State) : bool :=
  negb (existsb (fun book => 0 <? Book.count book) (books st)).

(** Whether a row of the borrows table carries the "Return Book" button:
    [borrow.status === 'active' && <button onClick={handleReturn(borrow.id)}>]. *)
Definition returnButton (b : Borrow.t) : bool := isActive b.

(* ------------------------------------------------------------------------- *)
(** ** BookManager *)

(** [handleAddBook]: [stamp] is [Date.now()]. *)
Definition handleAddBook (thisYear stamp : Z) (st : State) : State :=
  let f := formData st in
  let newBook :=
    Book.mk stamp (Form.title f) (Form.author f) (Form.genre f) (Form.isbn f)
            (Form.year f) (Form.count f) (Form.count f) in
  let st1 := setBooks (fun prevBooks => prevBooks ++ [newBook]) st in
  setBookForm false (editingBook st1) (initialFormState thisYear) st1.

(** [{ ...book, ...formData, totalCopies: Math.max(formData.count, book.totalCopies) }]. *)
Definition updatedBook (f : Form.t) (book : Book.t) : Book.t :=
  Book.mk (Book.id book) (Form.title f) (Form.author f) (Form.genre f)
          (Form.isbn f) (Form.year f) (Form.count f)
          (Z.max (Form.count f) (Book.totalCopies book)).

(** [handleUpdateBook].  The form submits to it only while [editingBook] is
    set; without one, reading [editingBook.id] raises a [TypeError], which
    the [catch] reports. *)
Definition handleUpdateBook (thisYear : Z) (st : State) : State :=
  match editingBook st with
  | None =>
      setError
        "Failed to update book: Cannot read properties of null (reading 'id')"
        st
  | Some editing =>
      let f := formData st in
      let st1 :=
        setBooks (fun prevBooks =>
          map (fun book =>
                 if Book.id book =? Book.id editing
                 then updatedBook f book
                 else book) prevBooks) st in
      setBookForm false None (initialFormState thisYear) st1
  end.

(** [handleEditBook]: opens the form on a row's book. *)
Definition handleEditBook (book : Book.t) (st : State) : State :=
  setBookForm true (Some book)
    (Form.mk (Book.title book) (Book.author book) (Book.genre book)
             (Book.isbn book) (Book.year book) (Book.count book)) st.

(** [handleDeleteBook]: [confirmed] is the answer of [window.confirm]. *)
Definition handleDeleteBook (confirmed : bool) (bookId : Z) (st : State)
    : State :=
  if confirmed
  then setBooks (fun prevBooks =>
         List.filter (fun book => negb (Book.id book =? bookId)) prevBooks) st
  else st.

(** [handleSubmit] of [AddUserForm] while no member is being edited (the
    same record as [handleAddUser] builds): [stamp] is [Date.now()]. *)
Definition submitNewMember (stamp : Z) (localFormData : UserForm.t)
    (st : State) : State :=
  let newUser :=
    User.mk (IdNum stamp) (UserForm.name localFormData)
            (UserForm.email localFormData) (UserForm.phone localFormData)
            (UserForm.memberSince localFormData) [] in
  setUsers (fun prevUsers => prevUsers ++ [newUser]) st.

(* ------------------------------------------------------------------------- *)
(** ** What the rendered page lets the user do

    An [Action] is one complete interaction: filling in a form and submitting
    it, or pressing a button of a table row.  [offered] collects conditions
    the render functions and the form attributes impose before the handler
    runs; [run] is the handler on the state the interaction leaves. *)

Inductive Action : Type :=
  | NewBorrow (today stamp : Z) (user book : string) (days : Z)
  | ReturnBook (now borrowId : Z)
  | AddBook (thisYear stamp : Z) (form : Form.t)
  | EditBook (thisYear : Z) (row : nat) (form : Form.t)
  | DeleteBook (bookId : Z)
  | AddMember (stamp : Z) (form : UserForm.t).

Definition run (tz : JsDate.TimeZone) (a : Action) (st : State) : State :=
  match a with
  | NewBorrow today stamp user book days =>
      handleBorrow tz today stamp (setBorrowForm true user book days st)
  | ReturnBook now borrowId => handleReturn now borrowId st
  | AddBook thisYear stamp form =>
      handleAddBook thisYear stamp (setBookForm true None form st)
  | EditBook thisYear row form =>
      match nth_error (books st) row with
      | Some book =>
          handleUpdateBook thisYear
            (setBookForm true (Some book) form (handleEditBook book st))
      | None => st
      end
  | DeleteBook bookId => handleDeleteBook true bookId st
  | AddMember stamp form => submitNewMember stamp form st
  end.

Definition offered (st : State) (a : Action) : bool :=
  match a with
  | NewBorrow _ _ user book days =>
      (* <option value={book.id}> for the books with count > 0,
         <option value={user.id}>, <input type="number" min="1" max="30"> *)
      existsb (fun b => String.eqb (Js.numberToString (Book.id b)) book)
              (bookOptions st)
      && existsb (fun u => String.eqb (idToString (User.id u)) user) (users st)
      && (1 <=? days) && (days <=? 30)
  | ReturnBook _ borrowId =>
      (* a row of the table whose button is rendered *)
      existsb (fun b => (Borrow.id b =? borrowId) && returnButton b)
              (borrows st)
  | AddBook _ _ form =>
      (* <input id="count" type="number" required min="1"> *)
      1 <=? Form.count form
  | EditBook _ row form =>
      match nth_error (books st) row with
      | Some _ => 1 <=? Form.count form
      | None => false
      end
  | DeleteBook bookId =>
      existsb (fun b => Book.id b =? bookId) (books st)
  | AddMember _ form =>
      (* every input of the member form is required *)
      negb (String.eqb (UserForm.name form) "")
      && negb (String.eqb (UserForm.email form) "")
      && negb (String.eqb (UserForm.phone form) "")
      && negb (String.eqb (UserForm.memberSince form) "")
  end.

(** [Date.now()] has not been used as an identifier of the collection the
    action extends. *)
Definition freshStamp (st : State) (a : Action) : bool :=
  match a with
  | NewBorrow _ stamp _ _ _ =>
      negb (existsb (fun b => Borrow.id b =? stamp) (borrows st))
  | AddBook _ stamp _ =>
      negb (existsb (fun b => Book.id b =? stamp) (books st))
  | _ => true
  end.

(** Borrowing, returning and deleting a book. *)
Definition isLoanAction (a : Action) : bool :=
  match a with
  | NewBorrow _ _ _ _ _ | ReturnBook _ _ | DeleteBook _ => true
  | AddBook _ _ _ | EditBook _ _ _ | AddMember _ _ => false
  end.

Definition anyAction (a : Action) : bool := true.

(** The states reached through offered actions of a given kind. *)
Inductive reachable (tz : JsDate.TimeZone) (kind : Action -> bool)
    : State -> State -> Prop :=
  | reach_refl : forall st, reachable tz kind st st
  | reach_step : forall st a st',
      kind a = true ->
      offered st a = true ->
      freshStamp st a = true ->
      reachable tz kind (run tz a st) st' ->
      reachable tz kind st st'.

(** The same for a given script of actions, as a computation. *)
Fixpoint runAll (tz : JsDate.TimeZone) (script : list Action) (st : State)
    : State :=
  match script with
  | [] => st
  | a :: script' => runAll tz script' (run tz a st)
  end.

Fixpoint allOffered (tz : JsDate.TimeZone) (kind : Action -> bool)
    (script : list Action) (st : State) : bool :=
  match script with
  | [] => true
  | a :: script' =>
      kind a && offered st a && freshStamp st a
      && allOffered tz kind script' (run tz a st)
  end.

(* ------------------------------------------------------------------------- *)
(** ** The inventory invariants *)

(** The number of records with status [active] that reference book [k]. *)
Definition activeLoans (k : Z) (bs : list Borrow.t) : Z :=
  Z.of_nat
    (List.length
       (List.filter (fun b => isActive b && Js.numEq k (Borrow.bookId b)) bs)).

Definition countsInRange (st : State) : Prop :=
  forall b, In b (books st) -> 0 <= Book.count b <= Book.totalCopies b.

Definition loansMatchCounts (st : State) : Prop :=
  forall b, In b (books st) ->
    activeLoans (Book.id b) (borrows st) = Book.totalCopies b - Book.count b.

Definition distinctBorrowIds (st : State) : Prop :=
  NoDup (map Borrow.id (borrows st)).

Definition distinctBookIds (st : State) : Prop :=
  NoDup (map Book.id (books st)).

(* ------------------------------------------------------------------------- *)
(** ** The overdue filter, as the specification words it *)

(** Case-insensitive substring match. *)
Definition containsIgnoringCase (s q : string) : Prop :=
  exists pre post,
    Js.toLowerCase s = (pre ++ Js.toLowerCase q ++ post)%string.

(** The book a record links to. *)
Definition linkedBook (bks : list Book.t) (r : Borrow.t) : option Book.t :=
  find (fun bk => Js.numEq (Book.id bk) (Borrow.bookId r)) bks.

(** The query matches the member name or the linked book's title. *)
Definition specMatches (bks : list Book.t) (q : string) (r : Borrow.t) : Prop :=
  (exists n, Borrow.userName r = Some n /\ containsIgnoringCase n q) \/
  (exists bk, linkedBook bks r = Some bk /\
              containsIgnoringCase (Book.title bk) q).

(** [isOverdue(record, asOf)]: status is active and [asOf] is past the due
    date. *)
Definition specIsOverdue (r : Borrow.t) (asOf : Z) : Prop :=
  Borrow.status r = active /\ JsDate.parseISODate (Borrow.dueDate r) < asOf.

Definition specOverdueRow (asOf : Z) (bks : list Book.t) (q : string)
    (r : Borrow.t) : Prop :=
  specMatches bks q r /\ specIsOverdue r asOf.

(* ------------------------------------------------------------------------- *)
(** ** Sample data *)

Definition dune (count total : Z) : Book.t :=
  Book.mk 1 "Dune" "Frank Herbert" "Science Fiction" "9780441013593" 1965
          count total.

Definition emma : Book.t :=
  Book.mk 2 "Emma" "Jane Austen" "Fiction" "9780141439587" 1815 2 2.

Definition ada : User.t :=
  User.mk (IdStr "u1") "Ada Lovelace" "ada@example.org" "555-0100" "2023-01-15"
          [].

Definition library (bks : list Book.t) (brs : list Borrow.t) : State :=
  mkState bks [ada] brs None false "" "all" "" "" 14 false None
          (initialFormState 2024).

(** 2024-03-02T00:30:00Z, which is 2024-03-01 19:30 in New York. *)
Definition eveningOfMarch1 : Z := 1709339400000.

(** A loan of [dune] by [ada], made on day 19784 and due on day 19798. *)
Definition loanOfDune (st : Status) (ret : option Z) : Borrow.t :=
  Borrow.mk 500 (Some 1) "u1" (Some "Ada Lovelace"%string) 19784 19798 ret st.

Definition duneForm (count : Z) : Form.t :=
  Form.mk "Dune" "Frank Herbert" "Science Fiction" "9780441013593" 1965 count.

(** The only copy of a book is lent, the book is edited while the copy is
    out (the form opens on the available count 0, which the [min="1"] of the
    input refuses, so the user enters 1), then the copy comes back. *)
Definition lendEditReturn : list Action :=
  [ NewBorrow eveningOfMarch1 500 "u1" "1" 14;
    EditBook 2024 0 (duneForm 1);
    ReturnBook (eveningOfMarch1 + JsDate.msPerDay) 500 ].

(** A copy is lent and comes back, and another book is deleted. *)
Definition lendReturnDelete : list Action :=
  [ NewBorrow eveningOfMarch1 500 "u1" "1" 14;
    ReturnBook (eveningOfMarch1 + JsDate.msPerDay) 500;
    DeleteBook 2 ].

(** A second loan of [dune], made a day later. *)
Definition secondLoanOfDune : Borrow.t :=
  Borrow.mk 501 (Some 1) "u1" (Some "Ada Lovelace"%string) 19785 19799 None
            active.

(** A loan of [emma], returned on day 19790. *)
Definition loanOfEmma : Borrow.t :=
  Borrow.mk 502 (Some 2) "u1" (Some "Ada Lovelace"%string) 19780 19787
            (Some 19790) returned.

(** A member is added through the member form, which stores the number
    [Date.now()] returned as the identifier, and then borrows a book. *)
Definition memberThenBorrow : list Action :=
  [ AddMember 1709000000000
      (UserForm.mk "Grace Hopper" "grace@example.org" "555-0101" "2024-02-27");
    NewBorrow eveningOfMarch1 500 "1709000000000" "1" 14 ].

(** 2024-04-01T12:00:00Z. *)
Definition noonOfApril1 : Z := 1711972800000.

(** The borrows page with the query "DUNE" and the status filter "overdue":
    an active loan of Dune due on day 19799, a returned loan of Dune and a
    returned loan of Emma. *)
Definition overduePage : State :=
  setSearch "DUNE" "overdue"
    (library [dune 0 1; emma]
       [secondLoanOfDune; loanOfDune returned (Some 19790); loanOfEmma]).

(* ------------------------------------------------------------------------- *)
(** ** The rest of the pages: paging, the book and member lists, the
       dashboard figures *)

Definition ROWS_PER_PAGE : Z := 10.

(** An index argument of [Array.prototype.slice] on an array of length
    [len]: a negative index counts from the end, and both ends are clamped. *)
Definition sliceIndex (len i : Z) : Z :=
  if i <? 0 then Z.max (len + i) 0 else Z.min i len.

(** [l.slice(start, stop)]. *)
Definition slice {A : Type} (l : list A) (start stop : Z) : list A :=
  let len := Z.of_nat (List.length l) in
  let k := sliceIndex len start in
  let final := sliceIndex len stop in
  firstn (Z.to_nat (final - k)) (skipn (Z.to_nat k) l).

(** [Math.ceil(n / d)] for integers [n] and [d > 0]. *)
Definition ceilDiv (n d : Z) : Z := - ((- n) / d).

(** [totalPages], [startIndex], [endIndex] and [currentBorrows] of
    [BorrowManager]. *)
Definition totalPages (filtered : list Borrow.t) : Z :=
  ceilDiv (Z.of_nat (List.length filtered)) ROWS_PER_PAGE.

Definition currentBorrows (currentPage : Z) (filtered : list Borrow.t)
    : list Borrow.t :=
  let startIndex := (currentPage - 1) * ROWS_PER_PAGE in
  let endIndex := startIndex + ROWS_PER_PAGE in
  slice filtered startIndex endIndex.

(** [totalBookPages] and [paginatedBooks] of [BookManager]. *)
Definition totalBookPages (filtered : list Book.t) : Z :=
  ceilDiv (Z.of_nat (List.length filtered)) ROWS_PER_PAGE.

Definition paginatedBooks (currentBookPage : Z) (filtered : list Book.t)
    : list Book.t :=
  slice filtered ((currentBookPage - 1) * ROWS_PER_PAGE)
        (currentBookPage * ROWS_PER_PAGE).

(** The [disabled] attributes of the two paging buttons. *)
Definition previousDisabled (currentPage : Z) : bool := currentPage =? 1.
Definition nextDisabled (currentPage pages : Z) : bool := currentPage =? pages.

(** [filteredBooks] of [BookManager]; [query] and [flt] are its own
    [searchQuery] and [filter]. *)
Definition filteredBooks (query flt : string) (bks : list Book.t)
    : list Book.t :=
  List.filter
    (fun book =>
       let matchesSearch :=
         Js.includes (Js.toLowerCase (Book.title book)) (Js.toLowerCase query)
         || Js.includes (Js.toLowerCase (Book.author book)) (Js.toLowerCase query)
         || Js.includes (Js.toLowerCase (Book.isbn book)) (Js.toLowerCase query) in
       if String.eqb flt "available"
       then matchesSearch && (0 <? Book.count book)
       else if String.eqb flt "borrowed"
       then matchesSearch && (Book.count book <? Book.totalCopies book)
       else matchesSearch)
    bks.

(** [filteredUsers] of [BookManager]. *)
Definition filteredUsers (userSearchQuery : string) (us : list User.t)
    : list User.t :=
  List.filter
    (fun user =>
       Js.includes (Js.toLowerCase (User.name user))
                   (Js.toLowerCase userSearchQuery)
       || Js.includes (Js.toLowerCase (User.email user))
                      (Js.toLowerCase userSearchQuery)
       || Js.includes (Js.toLowerCase (User.phone user))
                      (Js.toLowerCase userSearchQuery))
    us.

(** [a === b] for two member identifiers. *)
Definition jsIdEq (a b : JsId) : bool :=
  match a, b with
  | IdNum m, IdNum n => m =? n
  | IdStr s, IdStr t => String.eqb s t
  | _, _ => false
  end.

(** [handleDeleteUser]: [confirmed] is the answer of [window.confirm]. *)
Definition handleDeleteUser (confirmed : bool) (userId : JsId) (st : State)
    : State :=
  if confirmed
  then setUsers (fun prevUsers =>
         List.filter (fun user => negb (jsIdEq (User.id user) userId))
                     prevUsers) st
  else st.


(** The figures of [Dashboard] that are computed from the books. *)
Module Dashboard.

(** [x || 0] for a number [x]. *)
Definition orZero (x : Z) : Z := if x =? 0 then 0 else x.


Definition availableBooks (bks : list Book.t) : Z :=
  fold_left (fun acc book => acc + orZero (Book.count book)) bks 0.

Definition totalCopies (bks : list Book.t) : Z :=
  fold_left (fun acc book => acc + orZero (Book.totalCopies book)) bks 0.

Definition borrowedBooks (bks : list Book.t) : Z :=
  totalCopies bks - availableBooks bks.




End Dashboard.

(** Every count is at least 0. *)
Definition countsNonNegative (st : State) : Prop :=
  forall b, In b (books st) -> 0 <= Book.count b.


(** Twenty-three loans by [ada], identifiers 1 to 23, all active. *)
Definition manyLoans : list Borrow.t :=
  map (fun n => Borrow.mk (Z.of_nat n) (Some 1) "u1"
                  (Some "Ada Lovelace"%string) 19784 19798 None active)
      (seq 1 23).

(** The sum of [f] over a list. *)
Fixpoint sumZ {A : Type} (f : A -> Z) (l : list A) : Z :=
  match l with
  | [] => 0
  | x :: l' => f x + sumZ f l'
  end.




(** The active loans that reference a listed book. *)
Definition loansOfListedBooks (st : State) : list Borrow.t :=
  List.filter
    (fun r => isActive r &&
              existsb (fun b => Js.numEq (Book.id b) (Borrow.bookId r)) (books st))
    (borrows st).

(* ========================================================================= *)
(** * Properties *)

(* ------------------------------------------------------------------------- *)
(** ** Strings and numbers *)

Lemma startsWith_spec (s q : string) :
  Js.startsWith s q = true <-> exists post, s = (q ++ post)%string.
Proof.
  revert s; induction q as [|a q IH]; intros s; simpl.
  - split; [intros _; now exists s | reflexivity].
  - destruct s as [|b s].
    + split; [discriminate | intros [post H]; discriminate].
    + rewrite andb_true_iff, Ascii.eqb_eq, IH. split.
      * intros [-> [post ->]]. now exists post.
      * intros [post H]. injection H as -> ->. split; [reflexivity | now exists post].
Qed.

Lemma includes_spec (s q : string) :
  Js.includes s q = true <->
  exists pre post, s = (pre ++ q ++ post)%string.
Proof.
  induction s as [|c s IH].
  - simpl. rewrite orb_false_r, startsWith_spec. split.
    + intros [post H]. now exists EmptyString, post.
    + intros [pre [post H]]. destruct pre as [|p pre]; [|discriminate].
      now exists post.
  - cbn [Js.includes]. rewrite orb_true_iff, startsWith_spec, IH. split.
    + intros [[post H] | [pre [post H]]].
      * now exists EmptyString, post.
      * exists (String c pre), post. simpl. now rewrite H.
    + intros [pre [post H]]. destruct pre as [|p pre].
      * left. now exists post.
      * right. simpl in H. injection H as _ H. now exists pre, post.
Qed.

Lemma includes_ignoring_case (s q : string) :
  Js.includes (Js.toLowerCase s) (Js.toLowerCase q) = true <->
  containsIgnoringCase s q.
Proof. apply includes_spec. Qed.

Lemma digitPrefix_string_of_uint (d : Decimal.uint) :
  Js.digitPrefix (NilEmpty.string_of_uint d) = NilEmpty.string_of_uint d.
Proof. induction d; simpl; try rewrite IHd; reflexivity. Qed.

Lemma digitsValue_string_of_uint (d : Decimal.uint) :
  d <> Decimal.Nil ->
  Js.digitsValue (Js.digitPrefix (NilEmpty.string_of_uint d)) = Some (Z.of_uint d).
Proof.
  intros Hd. rewrite digitPrefix_string_of_uint.
  unfold Js.digitsValue.
  destruct (NilEmpty.string_of_uint d) eqn:E.
  - destruct d; simpl in E; try discriminate. now elim Hd.
  - rewrite <- E, NilEmpty.usu. reflexivity.
Qed.

Lemma parseInt_unsigned (d : Decimal.uint) :
  d <> Decimal.Nil ->
  Js.parseInt (NilEmpty.string_of_uint d) = Some (Z.of_uint d).
Proof.
  intros Hd. rewrite <- (digitsValue_string_of_uint d Hd).
  destruct d; try (now elim Hd); reflexivity.
Qed.

(** [parseInt(String(n))] is [n]. *)
Lemma parseInt_numberToString (n : Z) :
  Js.parseInt (Js.numberToString n) = Some n.
Proof.
  unfold Js.numberToString.
  rewrite <- (DecimalZ.of_to n) at 2.
  destruct n as [|p|p]; cbn [Z.to_int NilEmpty.string_of_int Z.of_int].
  - reflexivity.
  - apply parseInt_unsigned, Unsigned.to_uint_nonnil.
  - change (option_map Z.opp
              (Js.digitsValue
                 (Js.digitPrefix (NilEmpty.string_of_uint (Pos.to_uint p)))) =
            Some (- Z.of_uint (Pos.to_uint p))).
    rewrite digitsValue_string_of_uint by apply Unsigned.to_uint_nonnil.
    reflexivity.
Qed.

Lemma numberToString_inj (m n : Z) :
  Js.numberToString m = Js.numberToString n -> m = n.
Proof.
  intros H. apply (f_equal Js.parseInt) in H.
  rewrite !parseInt_numberToString in H. congruence.
Qed.

(* ------------------------------------------------------------------------- *)
(** ** Dates *)

(** [d.setDate(d.getDate() + n)] moves the local time by [n] whole days,
    whatever the month lengths. *)
Lemma setDate_getDate_add (tz : JsDate.TimeZone) (t n : Z) :
  JsDate.setDate tz t (JsDate.getDate tz t + n) =
  JsDate.UTC tz (JsDate.LocalTime tz t + n * JsDate.msPerDay).
Proof.
  unfold JsDate.setDate, JsDate.getDate, JsDate.MakeDayInMonthOf,
    JsDate.monthStartDay, JsDate.MakeDate, JsDate.TimeWithinDay, JsDate.Day.
  f_equal.
  pose proof (Z.div_mod (JsDate.LocalTime tz t) JsDate.msPerDay) as H.
  unfold JsDate.msPerDay in *. lia.
Qed.

(** In a zone with a single offset the UTC date moves by [n] days too. *)
Lemma setDate_fixedZone (offset t n : Z) :
  JsDate.toISODate
    (JsDate.setDate (JsDate.fixedZone offset) t
       (JsDate.getDate (JsDate.fixedZone offset) t + n)) =
  JsDate.toISODate t + n.
Proof.
  rewrite setDate_getDate_add.
  unfold JsDate.UTC, JsDate.LocalTime, JsDate.fixedZone, JsDate.toISODate,
    JsDate.Day.
  replace (t + offset + n * JsDate.msPerDay - offset)
    with (t + n * JsDate.msPerDay) by lia.
  apply Z.div_add. unfold JsDate.msPerDay. lia.
Qed.

(* ------------------------------------------------------------------------- *)
(** ** The handlers, collection by collection *)

Lemma books_handleBorrow tz today stamp st :
  books (handleBorrow tz today stamp st) =
  map (fun book =>
         if Js.numEq (Book.id book) (Js.parseInt (selectedBook st))
         then Book.withCount book (Book.count book - 1)
         else book) (books st).
Proof. reflexivity. Qed.

Lemma borrows_handleBorrow tz today stamp st :
  exists r,
    borrows (handleBorrow tz today stamp st) = r :: borrows st /\
    Borrow.id r = stamp /\
    Borrow.bookId r = Js.parseInt (selectedBook st) /\
    Borrow.borrowDate r = JsDate.toISODate today /\
    Borrow.dueDate r =
      JsDate.toISODate
        (JsDate.setDate tz today (JsDate.getDate tz today + borrowDuration st)) /\
    Borrow.returnDate r = None /\
    Borrow.status r = active.
Proof. eexists. repeat split. Qed.

Lemma handleReturn_found now i st r :
  find (fun b => Borrow.id b =? i) (borrows st) = Some r ->
  books (handleReturn now i st) =
    map (fun book =>
           if Js.numEq (Book.id book) (Borrow.bookId r)
           then Book.withCount book (Book.count book + 1)
           else book) (books st) /\
  borrows (handleReturn now i st) =
    map (fun b =>
           if Borrow.id b =? i
           then Borrow.markReturned b (JsDate.toISODate now)
           else b) (borrows st) /\
  users (handleReturn now i st) = users st /\
  error (handleReturn now i st) = error st.
Proof. intros H. unfold handleReturn. rewrite H. repeat split. Qed.

Lemma handleReturn_missing now i st :
  find (fun b => Borrow.id b =? i) (borrows st) = None ->
  handleReturn now i st =
  setError "Failed to process return: Borrow record not found" st.
Proof. intros H. unfold handleReturn. now rewrite H. Qed.

Lemma withCount_undo (b : Book.t) (c : Z) :
  c = Book.count b -> Book.withCount b c = b.
Proof. intros ->. now destruct b. Qed.

Lemma map_id_markReturned (i today : Z) (l : list Borrow.t) :
  map Borrow.id
    (map (fun b => if Borrow.id b =? i then Borrow.markReturned b today else b) l)
  = map Borrow.id l.
Proof.
  rewrite map_map. apply map_ext. intros b.
  now destruct (Borrow.id b =? i).
Qed.

Lemma NoDup_map_inj {A B : Type} (f : A -> B) (l : list A) (x y : A) :
  NoDup (map f l) -> In x l -> In y l -> f x = f y -> x = y.
Proof.
  induction l as [|a l IH]; simpl; intros Hnd Hx Hy E; [contradiction|].
  inversion Hnd as [|? ? Hnot Hnd']; subst.
  destruct Hx as [-> | Hx], Hy as [-> | Hy]; auto.
  - elim Hnot. rewrite E. now apply in_map.
  - elim Hnot. rewrite <- E. now apply in_map.
Qed.

Lemma allOffered_reachable tz kind script st :
  allOffered tz kind script st = true ->
  reachable tz kind st (runAll tz script st).
Proof.
  revert st. induction script as [|a script IH]; intros st H; simpl in *.
  - constructor.
  - rewrite !andb_true_iff in H. destruct H as [[[Hk Ho] Hf] Hrest].
    eapply reach_step; eauto.
Qed.

(* ------------------------------------------------------------------------- *)
(** ** Counting active loans *)

Lemma activeLoans_cons (k : Z) (r : Borrow.t) (l : list Borrow.t) :
  activeLoans k (r :: l) =
  (if isActive r && Js.numEq k (Borrow.bookId r) then 1 else 0) + activeLoans k l.
Proof.
  unfold activeLoans. simpl.
  destruct (isActive r && Js.numEq k (Borrow.bookId r)); simpl List.length; lia.
Qed.

Lemma activeLoans_nonneg (k : Z) (l : list Borrow.t) : 0 <= activeLoans k l.
Proof. unfold activeLoans. lia. Qed.

Lemma activeLoans_member (k : Z) (r : Borrow.t) (l : list Borrow.t) :
  In r l -> isActive r = true -> Js.numEq k (Borrow.bookId r) = true ->
  1 <= activeLoans k l.
Proof.
  induction l as [|x l IH]; intros Hin Ha Hk; [contradiction|].
  rewrite activeLoans_cons. destruct Hin as [-> | Hin].
  - rewrite Ha, Hk. cbn [andb]. pose proof (activeLoans_nonneg k l). lia.
  - specialize (IH Hin Ha Hk).
    destruct (isActive x && Js.numEq k (Borrow.bookId x)); lia.
Qed.

Lemma markReturned_absent (i today : Z) (l : list Borrow.t) :
  (forall x, In x l -> Borrow.id x <> i) ->
  map (fun b => if Borrow.id b =? i then Borrow.markReturned b today else b) l = l.
Proof.
  intros H. induction l as [|x l IH]; simpl; [reflexivity|].
  rewrite IH by (intros y Hy; apply H; now right).
  destruct (Z.eqb_spec (Borrow.id x) i) as [E|E]; [|reflexivity].
  elim (H x); [now left | exact E].
Qed.

Lemma find_by_id (i : Z) (r : Borrow.t) (l : list Borrow.t) :
  NoDup (map Borrow.id l) -> In r l -> Borrow.id r = i ->
  find (fun b => Borrow.id b =? i) l = Some r.
Proof.
  induction l as [|x l IH]; simpl; intros Hnd Hin Hi; [contradiction|].
  inversion Hnd as [|? ? Hnot Hnd']; subst.
  destruct (Z.eqb_spec (Borrow.id x) (Borrow.id r)) as [E|E].
  - destruct Hin as [-> | Hin]; [reflexivity|].
    elim Hnot. rewrite E. now apply in_map.
  - destruct Hin as [-> | Hin]; [now elim E | now apply IH].
Qed.

(** Marking the one active record with identifier [i] as returned takes one
    loan away from the book it references, and from no other book. *)
Lemma activeLoans_markReturned (k i today : Z) (r : Borrow.t) (l : list Borrow.t) :
  NoDup (map Borrow.id l) -> In r l -> Borrow.id r = i -> isActive r = true ->
  activeLoans k
    (map (fun b => if Borrow.id b =? i then Borrow.markReturned b today else b) l)
  = activeLoans k l - (if Js.numEq k (Borrow.bookId r) then 1 else 0).
Proof.
  induction l as [|x l IH]; simpl; intros Hnd Hin Hi Ha; [contradiction|].
  inversion Hnd as [|? ? Hnot Hnd']; subst.
  rewrite !activeLoans_cons.
  destruct (Z.eqb_spec (Borrow.id x) (Borrow.id r)) as [E|E].
  - assert (x = r) as ->.
    { destruct Hin as [-> | Hin]; [reflexivity|].
      elim Hnot. rewrite E. now apply in_map. }
    rewrite markReturned_absent.
    + rewrite Ha. simpl.
      destruct (Js.numEq k (Borrow.bookId r)); lia.
    + intros y Hy Ey. apply Hnot. rewrite <- Ey. now apply in_map.
  - destruct Hin as [-> | Hin]; [now elim E|].
    rewrite (IH Hnd' Hin eq_refl Ha). lia.
Qed.

(* ------------------------------------------------------------------------- *)
(** ** Preservation of the inventory invariants by the offered loan actions *)

Lemma offered_return_inv now i st :
  distinctBorrowIds st ->
  offered st (ReturnBook now i) = true ->
  exists r, In r (borrows st) /\ Borrow.id r = i /\ isActive r = true /\
            find (fun b => Borrow.id b =? i) (borrows st) = Some r.
Proof.
  intros Hnd H. simpl in H. apply existsb_exists in H.
  destruct H as [r [Hin H]]. apply andb_true_iff in H. destruct H as [Hi Ha].
  apply Z.eqb_eq in Hi. exists r. repeat split; auto.
  now apply find_by_id.
Qed.

Lemma offered_borrow_inv today stamp user book days st :
  offered st (NewBorrow today stamp user book days) = true ->
  exists b, In b (books st) /\ 0 < Book.count b /\
            Js.parseInt book = Some (Book.id b).
Proof.
  intros H. simpl in H. rewrite !andb_true_iff in H.
  destruct H as [[[H _] _] _]. apply existsb_exists in H.
  destruct H as [b [Hin E]]. apply String.eqb_eq in E.
  unfold bookOptions in Hin. apply filter_In in Hin. destruct Hin as [Hin Hc].
  exists b. repeat split; auto.
  - now apply Z.ltb_lt.
  - rewrite <- E. apply parseInt_numberToString.
Qed.

Section OfferedLoanActions.

Variable tz : JsDate.TimeZone.

Lemma loansMatchCounts_step a st :
  isLoanAction a = true ->
  offered st a = true ->
  freshStamp st a = true ->
  loansMatchCounts st /\ distinctBorrowIds st ->
  loansMatchCounts (run tz a st) /\ distinctBorrowIds (run tz a st).
Proof.
  intros Hk Ho Hf [Hm Hnd].
  destruct a as [today stamp user book days | now i | | | k | ];
    try discriminate Hk.
  - (* a new borrow *)
    split.
    + intros b' Hb'. cbn [run] in *. rewrite books_handleBorrow in Hb'.
      apply in_map_iff in Hb'. destruct Hb' as [b [<- Hb]].
      cbn [handleBorrow borrows setBorrowForm setBooks setBorrows selectedBook].
      rewrite activeLoans_cons. cbn [Borrow.status Borrow.bookId isActive andb].
      specialize (Hm b Hb). cbn [books borrows setBorrowForm] in Hm.
      destruct (Js.numEq (Book.id b) (Js.parseInt book)) eqn:E.
      * cbn [Book.id Book.withCount Book.count Book.totalCopies].
        rewrite E. lia.
      * rewrite E. lia.
    + unfold distinctBorrowIds in *. cbn. constructor; [|exact Hnd].
      cbn in Hf. apply negb_true_iff in Hf. intros Hin.
      apply in_map_iff in Hin. destruct Hin as [r [Hr Hin]].
      assert (existsb (fun b => Borrow.id b =? stamp) (borrows st) = true) as C.
      { apply existsb_exists. exists r. split; [exact Hin | now apply Z.eqb_eq]. }
      congruence.
  - (* a return *)
    destruct (offered_return_inv now i st Hnd Ho) as [r [Hin [Hi [Ha Hfind]]]].
    destruct (handleReturn_found now i st r Hfind) as [Hbooks [Hborrows _]].
    cbn [run]. split.
    + intros b' Hb'. rewrite Hbooks in Hb'. rewrite Hborrows.
      apply in_map_iff in Hb'. destruct Hb' as [b [<- Hb]].
      specialize (Hm b Hb).
      destruct (Js.numEq (Book.id b) (Borrow.bookId r)) eqn:E.
      * cbn [Book.id Book.withCount Book.count Book.totalCopies].
        rewrite (activeLoans_markReturned _ i _ r) by assumption.
        rewrite E. lia.
      * rewrite (activeLoans_markReturned _ i _ r) by assumption.
        rewrite E. lia.
    + unfold distinctBorrowIds. rewrite Hborrows, map_id_markReturned.
      exact Hnd.
  - (* a deletion *)
    split; [|exact Hnd].
    intros b Hb. cbn in Hb. apply filter_In in Hb. destruct Hb as [Hb _].
    exact (Hm b Hb).
Qed.

Lemma loan_invariants_reachable st st' :
  reachable tz isLoanAction st st' ->
  loansMatchCounts st /\ distinctBorrowIds st ->
  loansMatchCounts st' /\ distinctBorrowIds st'.
Proof.
  induction 1 as [st | st a st' Hk Ho Hf _ IH]; intros Hinv.
  - exact Hinv.
  - apply IH. now apply loansMatchCounts_step.
Qed.

Lemma NoDup_map_filter {A B : Type} (f : A -> B) (p : A -> bool) (l : list A) :
  NoDup (map f l) -> NoDup (map f (List.filter p l)).
Proof.
  induction l as [|x l IH]; simpl; intros Hnd; [constructor|].
  inversion Hnd as [|? ? Hnot Hnd']; subst.
  destruct (p x); simpl; auto.
  constructor; auto.
  intros Hin. apply Hnot. apply in_map_iff in Hin.
  destruct Hin as [y [E Hy]]. apply filter_In in Hy.
  rewrite <- E. apply in_map. tauto.
Qed.

(** Without edits, the offered loan actions also keep every count between 0
    and [totalCopies]. *)
Lemma countsInRange_step a st :
  isLoanAction a = true ->
  offered st a = true ->
  freshStamp st a = true ->
  countsInRange st /\ distinctBookIds st /\
  loansMatchCounts st /\ distinctBorrowIds st ->
  countsInRange (run tz a st) /\ distinctBookIds (run tz a st).
Proof.
  intros Hk Ho Hf [Hr [Hbk [Hm Hnd]]].
  destruct a as [today stamp user book days | now i | | | k | ];
    try discriminate Hk.
  - destruct (offered_borrow_inv _ _ _ _ _ _ Ho) as [b0 [Hb0 [Hc0 Hp]]].
    cbn [run]. split.
    + intros b' Hb'. rewrite books_handleBorrow in Hb'.
      cbn [selectedBook setBorrowForm books] in Hb'. rewrite Hp in Hb'.
      apply in_map_iff in Hb'. destruct Hb' as [b [<- Hb]].
      specialize (Hr b Hb). cbn [Js.numEq].
      destruct (Z.eqb_spec (Book.id b) (Book.id b0)) as [E|E]; [|exact Hr].
      assert (b = b0) as -> by (eapply NoDup_map_inj; eauto).
      cbn [Book.withCount Book.count Book.totalCopies]. lia.
    + unfold distinctBookIds in *. rewrite books_handleBorrow, map_map.
      erewrite map_ext; [exact Hbk|].
      intros b. cbn. now destruct (Js.numEq (Book.id b) _).
  - destruct (offered_return_inv now i st Hnd Ho) as [r [Hin [Hi [Ha Hfind]]]].
    destruct (handleReturn_found now i st r Hfind) as [Hbooks _].
    cbn [run]. unfold countsInRange, distinctBookIds in *. rewrite Hbooks. split.
    + intros b' Hb'. apply in_map_iff in Hb'. destruct Hb' as [b [<- Hb]].
      specialize (Hr b Hb). specialize (Hm b Hb).
      destruct (Js.numEq (Book.id b) (Borrow.bookId r)) eqn:E; [|exact Hr].
      pose proof (activeLoans_member _ _ _ Hin Ha E).
      cbn [Book.withCount Book.count Book.totalCopies]. lia.
    + rewrite map_map.
      erewrite map_ext; [exact Hbk|].
      intros b. now destruct (Js.numEq (Book.id b) _).
  - cbn. split.
    + intros b Hb. apply filter_In in Hb. apply Hr. tauto.
    + now apply NoDup_map_filter.
Qed.

Lemma countsInRange_reachable_loans st st' :
  reachable tz isLoanAction st st' ->
  countsInRange st /\ distinctBookIds st /\
  loansMatchCounts st /\ distinctBorrowIds st ->
  countsInRange st'.
Proof.
  induction 1 as [st | st a st' Hk Ho Hf _ IH]; intros Hinv.
  - tauto.
  - apply IH.
    destruct (countsInRange_step a st Hk Ho Hf Hinv) as [H1 H2].
    destruct Hinv as [_ [_ Hinv]].
    destruct (loansMatchCounts_step a st Hk Ho Hf Hinv) as [H3 H4].
    tauto.
Qed.

End OfferedLoanActions.

(* ------------------------------------------------------------------------- *)
(** ** The inventory invariants along the offered actions *)

(** C1. The claim "after any sequence of borrows, returns and book add/edit
    every book has [0 <= count <= totalCopies], and a return never takes
    [count] above [totalCopies]" evaluated on the code: from a consistent
    library holding one copy of one book, the script [lendEditReturn], every
    step of which the page offers, ends with [count = 2] and
    [totalCopies = 1]. *)
Theorem returned_copy_exceeds_totalCopies :
  let st := library [dune 1 1] [] in
  let st' := runAll JsDate.newYork2024 lendEditReturn st in
  countsInRange st /\ loansMatchCounts st /\
  allOffered JsDate.newYork2024 anyAction lendEditReturn st = true /\
  books st' = [dune 2 1] /\
  ~ countsInRange st'.
Proof.
  cbv zeta. refine (conj _ (conj _ (conj _ (conj _ _)))).
  - intros b [<- | []]. cbn. lia.
  - intros b [<- | []]. reflexivity.
  - vm_compute. reflexivity.
  - vm_compute. reflexivity.
  - intros H. specialize (H (dune 2 1)).
    assert (In (dune 2 1)
              (books (runAll JsDate.newYork2024 lendEditReturn
                        (library [dune 1 1] [])))) as Hin
      by (vm_compute; auto).
    specialize (H Hin). cbn in H. lia.
Qed.

(** C2, as stated, fails on the handlers: after a borrow and a return, a
    second call of [handleReturn] on the same identifier raises [count]
    again although no active record is left. *)
Lemma second_return_breaks_loansMatchCounts :
  let st := library [dune 1 1] [] in
  let st1 := run JsDate.newYork2024 (NewBorrow eveningOfMarch1 500 "u1" "1" 14) st in
  let st2 := handleReturn eveningOfMarch1 500 st1 in
  let st3 := handleReturn eveningOfMarch1 500 st2 in
  loansMatchCounts st /\ loansMatchCounts st2 /\ ~ loansMatchCounts st3.
Proof.
  cbv zeta. refine (conj _ (conj _ _)).
  - intros b [<- | []]. reflexivity.
  - intros b Hb. vm_compute in Hb. destruct Hb as [<- | []]. reflexivity.
  - intros H. specialize (H (dune 2 1)).
    assert (activeLoans 1 [loanOfDune returned (Some 19784)] = 1 - 2) as C
      by (apply H; vm_compute; auto).
    vm_compute in C. discriminate C.
Qed.

(** C2, amended.  From a state in which every book's active loans equal
    [totalCopies - count] and the borrow identifiers are distinct, every
    state reached through offered borrows (with an unused [Date.now()]),
    offered returns (the button of a record whose status is active) and book
    deletions satisfies the same equation for every book. *)
Theorem loansMatchCounts_offered_loans tz st st' :
  loansMatchCounts st ->
  distinctBorrowIds st ->
  reachable tz isLoanAction st st' ->
  loansMatchCounts st'.
Proof.
  intros Hm Hnd Hreach.
  now destruct (loan_invariants_reachable tz st st' Hreach (conj Hm Hnd)).
Qed.

Lemma loansMatchCounts_offered_loans_witness :
  let st := library [dune 1 1; emma] [] in
  let st' := runAll JsDate.newYork2024 lendReturnDelete st in
  loansMatchCounts st /\ distinctBorrowIds st /\
  reachable JsDate.newYork2024 isLoanAction st st' /\
  loansMatchCounts st'.
Proof.
  cbv zeta.
  assert (loansMatchCounts (library [dune 1 1; emma] [])) as Hm
    by (intros b [<- | [<- | []]]; reflexivity).
  assert (distinctBorrowIds (library [dune 1 1; emma] [])) as Hnd
    by constructor.
  assert (reachable JsDate.newYork2024 isLoanAction
            (library [dune 1 1; emma] [])
            (runAll JsDate.newYork2024 lendReturnDelete
               (library [dune 1 1; emma] []))) as Hr
    by (apply allOffered_reachable; reflexivity).
  refine (conj Hm (conj Hnd (conj Hr _))).
  exact (loansMatchCounts_offered_loans _ _ _ Hm Hnd Hr).
Defined.

(* ------------------------------------------------------------------------- *)
(** ** Borrowing a book of which no copy is available *)

(** C3, as stated, fails on the handler: with a selected book whose count is
    0, [handleBorrow] reports nothing, adds a record and takes the count
    to -1. *)
Lemma handleBorrow_unavailable_book_mutates :
  let st := setBorrowForm true "u1" "1" 14
              (library [dune 0 1] [loanOfDune active None]) in
  let st' := handleBorrow JsDate.newYork2024 eveningOfMarch1 501 st in
  error st' = None /\
  books st' = [dune (-1) 1] /\
  List.length (borrows st') = 2%nat /\
  books st' <> books st /\ borrows st' <> borrows st.
Proof.
  cbv zeta. repeat split; try (vm_compute; congruence).
Qed.

(** C3, amended.  When book identifiers are distinct, a book whose count is
    0 is not among the options of the borrow form, so no borrow of it is
    offered, whatever the member and the duration. *)
Theorem unavailable_book_not_offered st b today stamp user days :
  distinctBookIds st ->
  In b (books st) ->
  Book.count b = 0 ->
  offered st (NewBorrow today stamp user (Js.numberToString (Book.id b)) days)
  = false.
Proof.
  intros Hnd Hin Hc.
  destruct (offered st (NewBorrow today stamp user
                          (Js.numberToString (Book.id b)) days)) eqn:Ho;
    [|reflexivity].
  destruct (offered_borrow_inv _ _ _ _ _ _ Ho) as [b0 [Hb0 [Hc0 Hp]]].
  rewrite parseInt_numberToString in Hp. injection Hp as E.
  assert (b = b0) as -> by (eapply NoDup_map_inj; eauto).
  lia.
Qed.

Lemma unavailable_book_not_offered_witness :
  let st := library [dune 0 1; emma] [loanOfDune active None] in
  distinctBookIds st /\ In (dune 0 1) (books st) /\ Book.count (dune 0 1) = 0 /\
  offered st (NewBorrow eveningOfMarch1 501 "u1" "1" 14) = false.
Proof.
  cbv zeta.
  assert (distinctBookIds (library [dune 0 1; emma] [loanOfDune active None]))
    as Hnd.
  { unfold distinctBookIds. cbn. repeat constructor; cbn; intuition lia. }
  assert (In (dune 0 1)
            (books (library [dune 0 1; emma] [loanOfDune active None]))) as Hin
    by (left; reflexivity).
  refine (conj Hnd (conj Hin (conj eq_refl _))).
  exact (unavailable_book_not_offered _ (dune 0 1) eveningOfMarch1 501 "u1" 14
           Hnd Hin eq_refl).
Defined.

(** The "New Borrow" button is disabled exactly when no book has a copy
    available. *)
Lemma newBorrowDisabled_spec st :
  newBorrowDisabled st = true <->
  forall b, In b (books st) -> Book.count b <= 0.
Proof.
  unfold newBorrowDisabled. rewrite negb_true_iff. split.
  - intros H b Hb. destruct (Z.ltb_spec 0 (Book.count b)) as [Hlt|]; [|lia].
    assert (existsb (fun book => 0 <? Book.count book) (books st) = true) as C.
    { apply existsb_exists. exists b. split; [exact Hb | now apply Z.ltb_lt]. }
    congruence.
  - intros H.
    destruct (existsb (fun book => 0 <? Book.count book) (books st)) eqn:E;
      [|reflexivity].
    apply existsb_exists in E. destruct E as [b [Hb Hc]].
    apply Z.ltb_lt in Hc. specialize (H b Hb). lia.
Qed.

(* ------------------------------------------------------------------------- *)
(** ** Returning a record twice *)

(** C4, as stated, fails on the handler: a second [handleReturn] on a record
    that is already returned reports nothing and raises the count again. *)
Lemma second_handleReturn_increments_again :
  let st := library [dune 0 1] [loanOfDune active None] in
  let st1 := handleReturn eveningOfMarch1 500 st in
  let st2 := handleReturn (eveningOfMarch1 + JsDate.msPerDay) 500 st1 in
  borrows st1 = [loanOfDune returned (Some 19784)] /\
  books st1 = [dune 1 1] /\
  error st2 = None /\
  books st2 = [dune 2 1] /\
  borrows st2 = [loanOfDune returned (Some 19785)].
Proof. cbv zeta. repeat split. Qed.

(** C4, amended.  After [handleReturn] on an identifier, no row with that
    identifier carries the "Return Book" button, so a second return of it is
    not offered. *)
Theorem returned_record_not_offered_again now now' i st :
  offered (handleReturn now i st) (ReturnBook now' i) = false.
Proof.
  cbn [offered].
  destruct (find (fun b => Borrow.id b =? i) (borrows st)) as [r|] eqn:Hfind.
  - destruct (handleReturn_found now i st r Hfind) as [_ [-> _]].
    clear Hfind. induction (borrows st) as [|x l IH]; [reflexivity|].
    cbn [map existsb]. rewrite IH, orb_false_r.
    destruct (Z.eqb_spec (Borrow.id x) i) as [E|E].
    + cbn. apply andb_false_r.
    + apply andb_false_iff. left. now apply Z.eqb_neq.
  - rewrite (handleReturn_missing now i st Hfind). cbn [borrows setError].
    destruct (existsb _ (borrows st)) eqn:E; [|reflexivity].
    apply existsb_exists in E. destruct E as [x [Hx Hc]].
    apply andb_true_iff in Hc. destruct Hc as [Hc _].
    pose proof (find_none _ _ Hfind x Hx) as C. cbn in C. congruence.
Qed.

(* ------------------------------------------------------------------------- *)
(** ** Editing a book *)

(** C5, as stated, fails on the code: with two of five copies on loan
    ([count = 3]), entering 7 raises [totalCopies] by 2 and [count] by 4;
    entering 1, below the two copies on loan, is accepted without an error
    and leaves [totalCopies] at 5. *)
Lemma edit_count_and_total_diverge :
  let st := library [dune 3 5] [secondLoanOfDune; loanOfDune active None] in
  let up := run JsDate.newYork2024 (EditBook 2024 0 (duneForm 7)) st in
  let down := run JsDate.newYork2024 (EditBook 2024 0 (duneForm 1)) st in
  offered st (EditBook 2024 0 (duneForm 7)) = true /\
  offered st (EditBook 2024 0 (duneForm 1)) = true /\
  books up = [dune 7 7] /\
  books down = [dune 1 5] /\ error down = None.
Proof. cbv zeta. repeat split. Qed.

Lemma books_edit tz thisYear row form st book :
  nth_error (books st) row = Some book ->
  books (run tz (EditBook thisYear row form) st) =
    map (fun b => if Book.id b =? Book.id book then updatedBook form b else b)
        (books st) /\
  error (run tz (EditBook thisYear row form) st) = error st.
Proof. intros H. cbn [run]. rewrite H. split; reflexivity. Qed.

(** C5, amended.  An edit of a listed book is never rejected; it replaces
    the books with the same identifier by [updatedBook]: [count] becomes the
    form's count and [totalCopies] the larger of the form's count and the
    previous [totalCopies].  So [totalCopies] never decreases, and when it
    is raised the new [count] equals the new [totalCopies]: [count] rises by
    the same amount as [totalCopies] when no copy was on loan. *)
Theorem edit_book_capacity tz thisYear row form st book :
  nth_error (books st) row = Some book ->
  let st' := run tz (EditBook thisYear row form) st in
  error st' = error st /\
  books st' =
    map (fun b => if Book.id b =? Book.id book then updatedBook form b else b)
        (books st) /\
  forall b,
    let b' := updatedBook form b in
    Book.count b' = Form.count form /\
    Book.totalCopies b' = Z.max (Form.count form) (Book.totalCopies b) /\
    Book.totalCopies b <= Book.totalCopies b' /\
    (Book.totalCopies b < Book.totalCopies b' ->
       Book.count b' = Book.totalCopies b' /\
       (Book.count b = Book.totalCopies b ->
          Book.count b' - Book.count b =
          Book.totalCopies b' - Book.totalCopies b)).
Proof.
  intros H. cbv zeta.
  destruct (books_edit tz thisYear row form st book H) as [Hb He].
  refine (conj He (conj Hb _)).
  intros b. cbn [updatedBook Book.count Book.totalCopies]. lia.
Qed.

Lemma edit_book_capacity_witness :
  let st := library [dune 5 5; emma] [] in
  let st' := run JsDate.newYork2024 (EditBook 2024 0 (duneForm 7)) st in
  nth_error (books st) 0 = Some (dune 5 5) /\
  error st' = None /\ books st' = [dune 7 7; emma].
Proof.
  cbv zeta.
  destruct (edit_book_capacity JsDate.newYork2024 2024 0 (duneForm 7)
              (library [dune 5 5; emma] []) (dune 5 5) eq_refl)
    as [He [Hb _]].
  refine (conj eq_refl (conj He _)).
  rewrite Hb. reflexivity.
Defined.

(* ------------------------------------------------------------------------- *)
(** ** Adding and deleting books *)

(** C10. A book added through [handleAddBook] is appended with
    [totalCopies] equal to its [count], the count of the form. *)
Theorem handleAddBook_totalCopies_is_count thisYear stamp st :
  exists newBook,
    books (handleAddBook thisYear stamp st) = books st ++ [newBook] /\
    Book.id newBook = stamp /\
    Book.count newBook = Form.count (formData st) /\
    Book.totalCopies newBook = Book.count newBook.
Proof. eexists. repeat split. Qed.

Lemma map_unless {A : Type} (p : A -> bool) (f : A -> A) (l : list A) :
  (forall x, In x l -> p x = false) ->
  map (fun x => if p x then f x else x) l = l.
Proof.
  intros H. induction l as [|x l IH]; simpl; [reflexivity|].
  rewrite (H x) by now left.
  rewrite IH; [reflexivity|]. intros y Hy. apply H. now right.
Qed.

(** C9. [handleDeleteBook] changes the books only; a later [handleReturn]
    of a record that references the deleted book marks the records with that
    identifier as returned and changes no book. *)
Theorem delete_book_leaves_borrows now i k r st :
  find (fun b => Borrow.id b =? i) (borrows st) = Some r ->
  Borrow.bookId r = Some k ->
  let st1 := handleDeleteBook true k st in
  let st2 := handleReturn now i st1 in
  (forall confirmed,
     borrows (handleDeleteBook confirmed k st) = borrows st /\
     users (handleDeleteBook confirmed k st) = users st /\
     error (handleDeleteBook confirmed k st) = error st) /\
  books st1 = List.filter (fun b => negb (Book.id b =? k)) (books st) /\
  books st2 = books st1 /\
  borrows st2 =
    map (fun b => if Borrow.id b =? i
                  then Borrow.markReturned b (JsDate.toISODate now)
                  else b) (borrows st) /\
  (forall x, In x (borrows st2) -> Borrow.id x = i ->
             Borrow.status x = returned) /\
  error st2 = error st.
Proof.
  intros Hfind Hk. cbv zeta.
  assert (find (fun b => Borrow.id b =? i)
               (borrows (handleDeleteBook true k st)) = Some r) as Hfind'
    by exact Hfind.
  destruct (handleReturn_found now i _ r Hfind') as [Hb [Hbr [_ He]]].
  refine (conj _ (conj eq_refl (conj _ (conj Hbr (conj _ He))))).
  - intros []; repeat split.
  - rewrite Hb, Hk. apply map_unless.
    intros b Hin. cbn in Hin. apply filter_In in Hin.
    destruct Hin as [_ Hne]. cbn. now apply negb_true_iff.
  - rewrite Hbr. intros x Hx Hi. apply in_map_iff in Hx.
    destruct Hx as [y [<- Hy]].
    destruct (Z.eqb_spec (Borrow.id y) i) as [E|E]; [reflexivity|].
    elim E. destruct (Borrow.id y =? i) eqn:E'; [now apply Z.eqb_eq | exact Hi].
Qed.

Lemma delete_book_leaves_borrows_witness :
  let st := library [dune 0 1; emma] [loanOfDune active None] in
  let st1 := handleDeleteBook true 1 st in
  let st2 := handleReturn noonOfApril1 500 st1 in
  find (fun b => Borrow.id b =? 500) (borrows st) = Some (loanOfDune active None) /\
  borrows st1 = [loanOfDune active None] /\
  books st1 = [emma] /\ books st2 = [emma] /\
  borrows st2 = [loanOfDune returned (Some 19814)].
Proof.
  cbv zeta.
  destruct (delete_book_leaves_borrows noonOfApril1 500 1
              (loanOfDune active None)
              (library [dune 0 1; emma] [loanOfDune active None])
              eq_refl eq_refl)
    as [H1 [H2 [H3 [H4 _]]]].
  destruct (H1 true) as [H1' _].
  refine (conj eq_refl (conj H1' (conj H2 (conj _ H4)))).
  rewrite H3. exact H2.
Defined.

(* ------------------------------------------------------------------------- *)
(** ** The borrow and return round trip *)

Lemma books_return_after_borrow tz today stamp now st :
  books (handleReturn now stamp (handleBorrow tz today stamp st)) = books st.
Proof.
  unfold handleReturn.
  cbn [handleBorrow borrows setBorrowForm setBooks setBorrows find Borrow.id].
  rewrite Z.eqb_refl. cbn [books setBooks setBorrows setBorrowForm Borrow.bookId].
  rewrite books_handleBorrow, map_map. rewrite <- (map_id (books st)) at 2.
  apply map_ext. intros b.
  destruct (Js.numEq (Book.id b) (Js.parseInt (selectedBook st))) eqn:E.
  - change (Book.id (Book.withCount b (Book.count b - 1))) with (Book.id b).
    rewrite E. destruct b as [i t a g s y c n].
    unfold Book.withCount.
    cbn [Book.id Book.title Book.author Book.genre Book.isbn
         Book.year Book.count Book.totalCopies].
    f_equal. lia.
  - now rewrite E.
Qed.

(** C8. Borrowing a book through the form and returning the record that
    was created: the borrow takes one from the count of the selected book
    only, and after the return the books are what they were. *)
Theorem borrow_then_return_restores_books tz today stamp now user days b st :
  let st1 :=
    run tz (NewBorrow today stamp user (Js.numberToString (Book.id b)) days) st in
  let st2 := handleReturn now stamp st1 in
  books st1 =
    map (fun x => if Book.id x =? Book.id b
                  then Book.withCount x (Book.count x - 1)
                  else x) (books st) /\
  (exists r, borrows st1 = r :: borrows st /\ Borrow.id r = stamp /\
             Borrow.bookId r = Some (Book.id b) /\
             find (fun x => Borrow.id x =? stamp) (borrows st1) = Some r) /\
  books st2 = books st.
Proof.
  cbv zeta. cbn [run]. refine (conj _ (conj _ _)).
  - rewrite books_handleBorrow. cbn [selectedBook setBorrowForm books].
    now rewrite parseInt_numberToString.
  - eexists. cbn [handleBorrow borrows setBorrowForm setBooks setBorrows
                  selectedBook find Borrow.id Borrow.bookId].
    rewrite Z.eqb_refl, parseInt_numberToString. repeat split.
  - now rewrite books_return_after_borrow.
Qed.

(* ------------------------------------------------------------------------- *)
(** ** The overdue filter *)

Lemma filterThrowing_total {A : Type} (f : A -> option bool) (g : A -> bool)
    (l : list A) :
  (forall x, In x l -> f x = Some (g x)) ->
  filterThrowing f l = Some (List.filter g l).
Proof.
  induction l as [|x l IH]; intros H; simpl; [reflexivity|].
  rewrite (H x) by now left.
  rewrite IH by (intros y Hy; apply H; now right).
  reflexivity.
Qed.

Lemma matchesSearch_spec bks q r n :
  Borrow.userName r = Some n ->
  exists m, matchesSearch bks q r = Some m /\
            (m = true <-> specMatches bks q r).
Proof.
  intros Hn. unfold matchesSearch. rewrite Hn. eexists. split; [reflexivity|].
  unfold specMatches, linkedBook.
  rewrite orb_true_iff, includes_ignoring_case. split.
  - intros [H | H].
    + left. now exists n.
    + right.
      destruct (find (fun bk => Js.numEq (Book.id bk) (Borrow.bookId r)) bks)
        as [bk|]; [|discriminate].
      exists bk. split; [reflexivity | now apply includes_ignoring_case].
  - intros [[n' [E H]] | [bk [E H]]].
    + left. congruence.
    + right. rewrite E. now apply includes_ignoring_case.
Qed.

Lemma isActive_spec r : isActive r = true <-> Borrow.status r = active.
Proof. unfold isActive. destruct (Borrow.status r); split; congruence. Qed.

(** With the status filter [overdue], and every record carrying a member
    name, [filteredBorrows] is the input list filtered in place by a test
    that holds exactly of the records that match the search (member name or
    title of the linked book, ignoring case), are active, and whose due date
    is before the evaluation time; a returned record never passes the
    test. *)
Theorem filteredBorrows_overdue now st :
  filter st = "overdue"%string ->
  (forall r, In r (borrows st) -> Borrow.userName r <> None) ->
  exists keep,
    filteredBorrows now st = Some (List.filter keep (borrows st)) /\
    (forall r, In r (borrows st) ->
       (keep r = true <-> specOverdueRow now (books st) (searchQuery st) r)) /\
    (forall r, Borrow.status r = returned -> keep r = false).
Proof.
  intros Hf Hnames.
  exists (fun r =>
            match keepBorrow now (books st) (searchQuery st) "overdue" r with
            | Some k => k
            | None => false
            end).
  refine (conj _ (conj _ _)).
  - unfold filteredBorrows. rewrite Hf. apply filterThrowing_total.
    intros r Hr. specialize (Hnames r Hr).
    destruct (Borrow.userName r) as [n|] eqn:Hn; [|congruence].
    destruct (matchesSearch_spec (books st) (searchQuery st) r n Hn)
      as [m [Hm _]].
    unfold keepBorrow. rewrite Hm. reflexivity.
  - intros r Hr. specialize (Hnames r Hr).
    destruct (Borrow.userName r) as [n|] eqn:Hn; [|congruence].
    destruct (matchesSearch_spec (books st) (searchQuery st) r n Hn)
      as [m [Hm Hspec]].
    unfold keepBorrow. rewrite Hm. cbn [String.eqb Ascii.eqb Bool.eqb].
    unfold specOverdueRow, specIsOverdue.
    rewrite !andb_true_iff, Hspec, isActive_spec, Z.ltb_lt. tauto.
  - intros r Hret. unfold keepBorrow.
    destruct (matchesSearch (books st) (searchQuery st) r) as [m|];
      [|reflexivity].
    cbn [String.eqb Ascii.eqb Bool.eqb]. unfold isActive. rewrite Hret.
    now rewrite andb_false_r.
Qed.

Lemma filteredBorrows_overdue_witness :
  filter overduePage = "overdue"%string /\
  (forall r, In r (borrows overduePage) -> Borrow.userName r <> None) /\
  exists keep,
    filteredBorrows noonOfApril1 overduePage =
      Some (List.filter keep (borrows overduePage)) /\
    (forall r, In r (borrows overduePage) ->
       (keep r = true <->
        specOverdueRow noonOfApril1 (books overduePage)
          (searchQuery overduePage) r)) /\
    (forall r, Borrow.status r = returned -> keep r = false).
Proof.
  assert (forall r, In r (borrows overduePage) -> Borrow.userName r <> None)
    as Hnames
    by (intros r [<- | [<- | [<- | []]]]; discriminate).
  refine (conj eq_refl (conj Hnames _)).
  exact (filteredBorrows_overdue noonOfApril1 overduePage eq_refl Hnames).
Defined.

(** On [overduePage], at noon of 2024-04-01 (day 19814), only the active
    loan of Dune is listed. *)
Lemma filteredBorrows_overduePage :
  filteredBorrows noonOfApril1 overduePage = Some [secondLoanOfDune].
Proof. reflexivity. Qed.

(** C6. The claim "for every list of borrow records the overdue filter
    includes a record iff it matches the search, is active and is past due"
    evaluated on the code: a member added through the member form has a
    number as identifier; a borrow made for that member through the borrow
    form is recorded without [userName], because the strict comparison of
    the number with the selected string fails; on the list holding that
    record the filter throws instead of returning a list, with the filter
    [overdue] as with any other. *)
Theorem filteredBorrows_throws_without_userName :
  let st := library [dune 1 1] [] in
  let st' := runAll JsDate.newYork2024 memberThenBorrow st in
  allOffered JsDate.newYork2024 anyAction memberThenBorrow st = true /\
  (exists r, borrows st' = [r] /\ Borrow.userName r = None /\
             Borrow.status r = active) /\
  filteredBorrows noonOfApril1 (setSearch "" "overdue" st') = None /\
  forall query flt,
    filteredBorrows noonOfApril1 (setSearch query flt st') = None.
Proof.
  cbv zeta. refine (conj _ (conj _ (conj _ _))).
  - vm_compute. reflexivity.
  - eexists. split; [vm_compute; reflexivity|]. split; reflexivity.
  - vm_compute. reflexivity.
  - intros query flt. reflexivity.
Qed.

(* ------------------------------------------------------------------------- *)
(** ** The due date of a new record *)

(** The record of a borrow is active, has no return date, carries the UTC
    date of [today] as its borrow date and, as its due date, the UTC date of
    the instant [borrowDuration] days later on the local clock. *)
Lemma handleBorrow_record tz today stamp st :
  exists r,
    borrows (handleBorrow tz today stamp st) = r :: borrows st /\
    Borrow.status r = active /\
    Borrow.returnDate r = None /\
    Borrow.borrowDate r = JsDate.Day today /\
    Borrow.dueDate r =
      JsDate.Day
        (JsDate.UTC tz
           (JsDate.LocalTime tz today + borrowDuration st * JsDate.msPerDay)).
Proof.
  destruct (borrows_handleBorrow tz today stamp st)
    as [r [H1 [_ [_ [H2 [H3 [H4 H5]]]]]]].
  exists r. rewrite setDate_getDate_add in H3. tauto.
Qed.

(** Where local time has one offset from UTC the due date is the borrow date
    plus the duration. *)
Lemma handleBorrow_dueDate_fixedZone offset today stamp st :
  exists r,
    borrows (handleBorrow (JsDate.fixedZone offset) today stamp st)
      = r :: borrows st /\
    Borrow.status r = active /\
    Borrow.returnDate r = None /\
    Borrow.dueDate r = Borrow.borrowDate r + borrowDuration st.
Proof.
  destruct (borrows_handleBorrow (JsDate.fixedZone offset) today stamp st)
    as [r [H1 [_ [_ [H2 [H3 [H4 H5]]]]]]].
  exists r. rewrite setDate_fixedZone in H3.
  unfold JsDate.toISODate in *. repeat split; auto. congruence.
Qed.

(** C7. The claim "the new record is due [durationDays] calendar days after
    its borrow date" evaluated on the code: a borrow for 14 days submitted in
    New York on 2024-03-01 at 19:30 (2024-03-02T00:30Z), nine days before
    the clocks change, is recorded with borrow date 2024-03-02 (day 19784)
    and due date 2024-03-15 (day 19797), 13 days later.  The record is
    active and has no return date. *)
Theorem dueDate_short_across_clock_change :
  let a := NewBorrow eveningOfMarch1 500 "u1" "1" 14 in
  let st := library [dune 1 1] [] in
  offered st a = true /\
  exists r,
    borrows (run JsDate.newYork2024 a st) = [r] /\
    Borrow.status r = active /\
    Borrow.returnDate r = None /\
    Borrow.borrowDate r = 19784 /\
    Borrow.dueDate r = 19797 /\
    Borrow.dueDate r <> Borrow.borrowDate r + 14.
Proof.
  cbv zeta. split; [reflexivity|].
  eexists. split; [vm_compute; reflexivity|].
  cbn [Borrow.status Borrow.returnDate Borrow.borrowDate Borrow.dueDate].
  repeat split. discriminate.
Qed.

(* ------------------------------------------------------------------------- *)
(** ** Paging *)

Lemma sliceIndex_nonneg (len i : Z) :
  0 <= len -> 0 <= i -> sliceIndex len i = Z.min i len.
Proof.
  intros Hlen Hi. unfold sliceIndex.
  destruct (Z.ltb_spec i 0); [lia | reflexivity].
Qed.

(** The rows of page [p >= 1] of a list cut in pages of [ROWS_PER_PAGE]. *)
Lemma slice_page {A : Type} (l : list A) (p : Z) :
  1 <= p ->
  slice l ((p - 1) * ROWS_PER_PAGE) ((p - 1) * ROWS_PER_PAGE + ROWS_PER_PAGE) =
  firstn 10 (skipn (10 * Z.to_nat (p - 1)) l).
Proof.
  intros Hp. unfold slice, ROWS_PER_PAGE.
  rewrite !sliceIndex_nonneg by lia.
  set (n := List.length l).
  destruct (Z.le_gt_cases (Z.of_nat n) ((p - 1) * 10)) as [Hbig | Hsmall].
  - rewrite !Z.min_r by lia.
    replace (Z.of_nat n - Z.of_nat n) with 0 by lia.
    rewrite (skipn_all2 (n := (10 * Z.to_nat (p - 1))%nat)) by (subst n; lia).
    now rewrite firstn_nil.
  - rewrite (Z.min_l ((p - 1) * 10)) by lia.
    replace (Z.to_nat ((p - 1) * 10)) with (10 * Z.to_nat (p - 1))%nat by lia.
    destruct (Z.le_gt_cases ((p - 1) * 10 + 10) (Z.of_nat n)) as [Hfull | Hlast].
    + rewrite Z.min_l by lia. f_equal. lia.
    + rewrite Z.min_r by lia.
      rewrite !firstn_all2; try reflexivity; rewrite length_skipn; subst n; lia.
Qed.

Lemma chunks_concat {A : Type} (n : nat) :
  forall (l : list A),
    (List.length l <= 10 * n)%nat ->
    List.concat (map (fun p => firstn 10 (skipn (10 * (p - 1)) l)) (seq 1 n)) = l.
Proof.
  induction n as [|n IH]; intros l Hlen.
  - destruct l; [reflexivity | simpl in Hlen; lia].
  - cbn [seq map List.concat]. rewrite <- seq_shift, map_map.
    change (skipn (10 * (1 - 1)) l) with l.
    transitivity (firstn 10 l ++ skipn 10 l); [|apply firstn_skipn].
    f_equal.
    etransitivity; [|apply (IH (skipn 10 l)); rewrite length_skipn; lia].
    f_equal. apply map_ext_in. intros p Hp. apply in_seq in Hp.
    rewrite skipn_skipn. do 2 f_equal. lia.
Qed.

Lemma ceilDiv_pages (n : nat) :
  let pages := ceilDiv (Z.of_nat n) ROWS_PER_PAGE in
  0 <= pages /\ Z.of_nat n <= 10 * pages < Z.of_nat n + 10.
Proof.
  unfold ceilDiv, ROWS_PER_PAGE. cbv zeta.
  pose proof (Z.div_mod (- Z.of_nat n) 10 ltac:(lia)) as E.
  pose proof (Z.mod_pos_bound (- Z.of_nat n) 10 ltac:(lia)) as B.
  lia.
Qed.

Lemma page_rows {A : Type} (l : list A) (p : Z) :
  1 <= p ->
  let rows := firstn 10 (skipn (10 * Z.to_nat (p - 1)) l) in
  (List.length rows <= 10)%nat /\
  (10 * (p - 1) < Z.of_nat (List.length l) -> rows <> []) /\
  (Z.of_nat (List.length l) <= 10 * (p - 1) -> rows = []).
Proof.
  intros Hp. cbv zeta. refine (conj _ (conj _ _)).
  - rewrite length_firstn. lia.
  - intros Hlt Hnil. apply (f_equal (@List.length A)) in Hnil.
    rewrite length_firstn, length_skipn in Hnil. cbn [List.length] in Hnil.
    lia.
  - intros Hle. rewrite skipn_all2 by lia. apply firstn_nil.
Qed.

(** X1. The pages of the borrows table, 1 to [totalPages], each hold between
    1 and 10 rows and, put one after the other, are the filtered list: no row
    is lost or shown twice. *)
Theorem currentBorrows_pages (filtered : list Borrow.t) :
  List.concat (map (fun p => currentBorrows (Z.of_nat p) filtered)
              (seq 1 (Z.to_nat (totalPages filtered)))) = filtered /\
  forall p, 1 <= p <= totalPages filtered ->
    currentBorrows p filtered <> [] /\
    (List.length (currentBorrows p filtered) <= 10)%nat.
Proof.
  destruct (ceilDiv_pages (List.length filtered)) as [H0 [Hlo Hhi]].
  fold (totalPages filtered) in H0, Hlo, Hhi. split.
  - rewrite <- (chunks_concat (Z.to_nat (totalPages filtered)) filtered) at 2
      by lia.
    f_equal. apply map_ext_in. intros p Hp. apply in_seq in Hp.
    unfold currentBorrows. cbv zeta. rewrite slice_page by lia.
    do 3 f_equal. lia.
  - intros p Hp. unfold currentBorrows. cbv zeta. rewrite slice_page by lia.
    destruct (page_rows filtered p ltac:(lia)) as [Hlen [Hne _]].
    split; [apply Hne; lia | exact Hlen].
Qed.

(** X2. The same for the books table, whose page is cut with
    [slice((page - 1) * 10, page * 10)]. *)
Theorem paginatedBooks_pages (filtered : list Book.t) :
  List.concat (map (fun p => paginatedBooks (Z.of_nat p) filtered)
              (seq 1 (Z.to_nat (totalBookPages filtered)))) = filtered /\
  forall p, 1 <= p <= totalBookPages filtered ->
    paginatedBooks p filtered <> [] /\
    (List.length (paginatedBooks p filtered) <= 10)%nat.
Proof.
  destruct (ceilDiv_pages (List.length filtered)) as [H0 [Hlo Hhi]].
  fold (totalBookPages filtered) in H0, Hlo, Hhi.
  assert (forall p, 1 <= p ->
            paginatedBooks p filtered =
            firstn 10 (skipn (10 * Z.to_nat (p - 1)) filtered)) as Hpage.
  { intros p Hp. unfold paginatedBooks. rewrite <- slice_page by exact Hp.
    f_equal. unfold ROWS_PER_PAGE. lia. }
  split.
  - rewrite <- (chunks_concat (Z.to_nat (totalBookPages filtered)) filtered) at 2
      by lia.
    f_equal. apply map_ext_in. intros p Hp. apply in_seq in Hp.
    rewrite Hpage by lia. do 3 f_equal. lia.
  - intros p Hp. rewrite Hpage by lia.
    destruct (page_rows filtered p ltac:(lia)) as [Hlen [Hne _]].
    split; [apply Hne; lia | exact Hlen].
Qed.

(** X3. A page index past the last page shows no row and leaves the
    "next" button enabled.  Page 0 is empty too. *)
Theorem currentBorrows_past_the_end (filtered : list Borrow.t) (p : Z) :
  totalPages filtered < p ->
  currentBorrows p filtered = [] /\
  nextDisabled p (totalPages filtered) = false /\
  currentBorrows 0 filtered = [].
Proof.
  intros Hp.
  destruct (ceilDiv_pages (List.length filtered)) as [H0 [Hlo Hhi]].
  fold (totalPages filtered) in H0, Hlo, Hhi.
  refine (conj _ (conj _ _)).
  - unfold currentBorrows. cbv zeta. rewrite slice_page by lia.
    apply (page_rows filtered p ltac:(lia)). lia.
  - unfold nextDisabled. apply Z.eqb_neq. lia.
  - unfold currentBorrows, slice. cbv zeta.
    change ((0 - 1) * ROWS_PER_PAGE) with (-10).
    change (-10 + ROWS_PER_PAGE) with 0.
    set (len := Z.of_nat (List.length filtered)).
    assert (sliceIndex len 0 - sliceIndex len (-10) <= 0) as Hle.
    { unfold sliceIndex. cbn [Z.ltb Z.compare]. lia. }
    replace (Z.to_nat (sliceIndex len 0 - sliceIndex len (-10))) with 0%nat
      by lia.
    reflexivity.
Qed.

Lemma currentBorrows_past_the_end_witness :
  totalPages (firstn 20 manyLoans) < 3 /\
  currentBorrows 3 manyLoans <> [] /\
  currentBorrows 3 (firstn 20 manyLoans) = [] /\
  nextDisabled 3 (totalPages (firstn 20 manyLoans)) = false.
Proof.
  assert (totalPages (firstn 20 manyLoans) < 3) as H by (vm_compute; reflexivity).
  destruct (currentBorrows_past_the_end (firstn 20 manyLoans) 3 H)
    as [H1 [H2 _]].
  refine (conj H (conj _ (conj H1 H2))).
  vm_compute. discriminate.
Defined.

(* ------------------------------------------------------------------------- *)
(** ** The borrows list under every status filter *)

Lemma filterThrowing_none {A : Type} (f : A -> option bool) (l : list A) :
  filterThrowing f l = None <-> exists x, In x l /\ f x = None.
Proof.
  induction l as [|x l IH]; simpl.
  - split; [discriminate | intros [x [[] _]]].
  - destruct (f x) as [keep|] eqn:E.
    + destruct (filterThrowing f l) as [r|].
      * split; [discriminate|]. intros [y [[<- | Hy] Hn]]; [congruence|].
        assert (Some r = None) as C by (apply IH; now exists y).
        discriminate C.
      * split; [|reflexivity]. intros _.
        destruct (proj1 IH eq_refl) as [y [Hy Hn]]. exists y. auto.
    + split; [|reflexivity]. intros _. exists x. auto.
Qed.

Lemma keepBorrow_none now bks q flt r :
  keepBorrow now bks q flt r = None <-> Borrow.userName r = None.
Proof.
  unfold keepBorrow, matchesSearch.
  destruct (Borrow.userName r); split; congruence.
Qed.

(** X4. [filteredBorrows] throws exactly when some record of the list has
    no [userName], whatever the query, the status filter and the time; in
    that case the page renders nothing, not even the records that have a
    name. *)
Theorem filteredBorrows_throws_iff now st :
  filteredBorrows now st = None <->
  exists r, In r (borrows st) /\ Borrow.userName r = None.
Proof.
  unfold filteredBorrows. rewrite filterThrowing_none.
  split; intros [r [Hr Hn]]; exists r; split; auto;
    now apply (keepBorrow_none now (books st) (searchQuery st) (filter st) r).
Qed.

Lemma filter_andb {A : Type} (f g : A -> bool) (l : list A) :
  List.filter (fun x => f x && g x) l = List.filter g (List.filter f l).
Proof.
  induction l as [|x l IH]; simpl; [reflexivity|].
  destruct (f x); simpl; [destruct (g x)|]; now rewrite IH.
Qed.

Lemma filter_active_returned (l : list Borrow.t) :
  (List.length (List.filter isActive l) +
   List.length (List.filter isReturned l) = List.length l)%nat.
Proof.
  induction l as [|x l IH]; simpl; [reflexivity|].
  unfold isActive, isReturned in *.
  destruct (Borrow.status x); simpl; lia.
Qed.

(** The test of the search box alone, on a record that has a name. *)
Lemma filteredBorrows_by_filter now st q flt (g : Borrow.t -> bool) :
  (forall r, In r (borrows st) -> Borrow.userName r <> None) ->
  (forall r m, matchesSearch (books st) q r = Some m ->
               keepBorrow now (books st) q flt r = Some (m && g r)) ->
  filteredBorrows now (setSearch q flt st) =
  Some (List.filter g
          (List.filter
             (fun r => match matchesSearch (books st) q r with
                       | Some m => m
                       | None => false
                       end) (borrows st))).
Proof.
  intros Hnames Hkeep. rewrite <- filter_andb.
  unfold filteredBorrows. cbn [books borrows searchQuery filter setSearch].
  apply filterThrowing_total. intros r Hr.
  specialize (Hnames r Hr).
  destruct (matchesSearch (books st) q r) as [m|] eqn:Hm.
  - now apply Hkeep.
  - unfold matchesSearch in Hm. destruct (Borrow.userName r); congruence.
Qed.

(** X5. On records that all have a name, and for one query: the lists
    shown under "Active", "Returned" and "Overdue" are the list shown under
    "All Borrows" restricted, in the same order, to the active records, the
    returned records and the active records past their due date; every row
    of "All Borrows" is in exactly one of "Active" and "Returned". *)
Theorem filteredBorrows_status_filters now st q :
  (forall r, In r (borrows st) -> Borrow.userName r <> None) ->
  exists all,
    filteredBorrows now (setSearch q "all" st) = Some all /\
    filteredBorrows now (setSearch q "active" st)
      = Some (List.filter isActive all) /\
    filteredBorrows now (setSearch q "returned" st)
      = Some (List.filter isReturned all) /\
    filteredBorrows now (setSearch q "overdue" st)
      = Some (List.filter (overdueAt now) all) /\
    (List.length (List.filter isActive all) +
     List.length (List.filter isReturned all) = List.length all)%nat /\
    (forall r, In r (List.filter (overdueAt now) all) ->
               In r (List.filter isActive all)).
Proof.
  intros Hnames.
  exists (List.filter
            (fun r => match matchesSearch (books st) q r with
                      | Some m => m
                      | None => false
                      end) (borrows st)).
  refine (conj _ (conj _ (conj _ (conj _ (conj _ _))))).
  - rewrite (filteredBorrows_by_filter now st q "all" (fun _ => true) Hnames).
    + rewrite forallb_filter_id; [reflexivity|]. now apply forallb_forall.
    + intros r m Hm. unfold keepBorrow. rewrite Hm. cbn. now rewrite andb_true_r.
  - apply (filteredBorrows_by_filter now st q "active" isActive Hnames).
    intros r m Hm. unfold keepBorrow. now rewrite Hm.
  - apply (filteredBorrows_by_filter now st q "returned" isReturned Hnames).
    intros r m Hm. unfold keepBorrow. now rewrite Hm.
  - apply (filteredBorrows_by_filter now st q "overdue" (overdueAt now) Hnames).
    intros r m Hm. unfold keepBorrow, overdueAt. rewrite Hm. cbn.
    now rewrite andb_assoc.
  - apply filter_active_returned.
  - intros r Hr. apply filter_In in Hr. destruct Hr as [Hr Ho].
    apply filter_In. split; [exact Hr|].
    unfold overdueAt in Ho. now apply andb_true_iff in Ho.
Qed.

Lemma overduePage_names :
  forall r, In r (borrows overduePage) -> Borrow.userName r <> None.
Proof. intros r [<- | [<- | [<- | []]]]; discriminate. Qed.

Lemma filteredBorrows_status_filters_witness :
  (forall r, In r (borrows overduePage) -> Borrow.userName r <> None) /\
  exists all,
    filteredBorrows noonOfApril1 (setSearch "dune" "all" overduePage)
      = Some all /\
    filteredBorrows noonOfApril1 (setSearch "dune" "active" overduePage)
      = Some (List.filter isActive all) /\
    filteredBorrows noonOfApril1 (setSearch "dune" "returned" overduePage)
      = Some (List.filter isReturned all) /\
    filteredBorrows noonOfApril1 (setSearch "dune" "overdue" overduePage)
      = Some (List.filter (overdueAt noonOfApril1) all) /\
    (List.length (List.filter isActive all) +
     List.length (List.filter isReturned all) = List.length all)%nat /\
    (forall r, In r (List.filter (overdueAt noonOfApril1) all) ->
               In r (List.filter isActive all)).
Proof.
  split; [exact overduePage_names|].
  exact (filteredBorrows_status_filters noonOfApril1 overduePage "dune"
           overduePage_names).
Defined.

Lemma includes_empty (s : string) : Js.includes s "" = true.
Proof. destruct s; reflexivity. Qed.

Lemma filter_length_le {A : Type} (f g : A -> bool) (l : list A) :
  (forall x, f x = true -> g x = true) ->
  (List.length (List.filter f l) <= List.length (List.filter g l))%nat.
Proof.
  intros H. induction l as [|x l IH]; simpl; [lia|].
  destruct (f x) eqn:E.
  - rewrite (H x E). simpl. lia.
  - destruct (g x); simpl; lia.
Qed.

(** X6. With an empty search box the "Overdue" filter lists exactly the
    records the overdue alert counts: [overdueCount] is the number of rows
    of that list, it is at most the number of active records, and it does
    not decrease as time passes. *)
Theorem overdueCount_matches_filter now st :
  (forall r, In r (borrows st) -> Borrow.userName r <> None) ->
  filteredBorrows now (setSearch "" "overdue" st)
    = Some (List.filter (overdueAt now) (borrows st)) /\
  overdueCount now st
    = List.length (List.filter (overdueAt now) (borrows st)) /\
  (overdueCount now st <= List.length (List.filter isActive (borrows st)))%nat /\
  (forall later, now <= later ->
     (overdueCount now st <= overdueCount later st)%nat).
Proof.
  intros Hnames. refine (conj _ (conj eq_refl (conj _ _))).
  - unfold filteredBorrows. cbn [books borrows searchQuery filter setSearch].
    apply filterThrowing_total. intros r Hr. specialize (Hnames r Hr).
    unfold keepBorrow, matchesSearch, overdueAt.
    destruct (Borrow.userName r) as [n|]; [|congruence].
    change (Js.toLowerCase "") with ""%string.
    rewrite includes_empty. reflexivity.
  - apply filter_length_le. intros x Hx. unfold overdueAt in Hx.
    now apply andb_true_iff in Hx.
  - intros later Hlater. apply filter_length_le. intros x.
    unfold overdueAt. rewrite !andb_true_iff, !Z.ltb_lt. intuition lia.
Qed.

Lemma overdueCount_matches_filter_witness :
  (forall r, In r (borrows overduePage) -> Borrow.userName r <> None) /\
  filteredBorrows noonOfApril1 (setSearch "" "overdue" overduePage)
    = Some [secondLoanOfDune] /\
  overdueCount noonOfApril1 overduePage = 1%nat.
Proof.
  destruct (overdueCount_matches_filter noonOfApril1 overduePage
              overduePage_names) as [H1 [H2 _]].
  refine (conj overduePage_names (conj _ _)).
  - rewrite H1. reflexivity.
  - rewrite H2. reflexivity.
Defined.

(* ------------------------------------------------------------------------- *)
(** ** When a loan is due and when it is overdue *)

(** X7. An active loan counts as overdue from the first millisecond after
    00:00 UTC of its due date: on every later day, and on the due date
    itself at any time but midnight sharp. *)
Theorem overdueAt_from_due_date now r :
  Borrow.status r = active ->
  (overdueAt now r = true <->
   Borrow.dueDate r < JsDate.Day now \/
   (Borrow.dueDate r = JsDate.Day now /\ 0 < JsDate.TimeWithinDay now)).
Proof.
  intros Ha. unfold overdueAt, isActive. rewrite Ha. cbn [andb].
  rewrite Z.ltb_lt.
  unfold JsDate.parseISODate, JsDate.Day, JsDate.TimeWithinDay, JsDate.msPerDay.
  pose proof (Z.div_mod now 86400000 ltac:(lia)) as E.
  pose proof (Z.mod_pos_bound now 86400000 ltac:(lia)) as B.
  lia.
Qed.

Lemma overdueAt_from_due_date_witness :
  Borrow.status secondLoanOfDune = active /\
  (overdueAt (19799 * JsDate.msPerDay + 1) secondLoanOfDune = true <->
   Borrow.dueDate secondLoanOfDune
     < JsDate.Day (19799 * JsDate.msPerDay + 1) \/
   (Borrow.dueDate secondLoanOfDune
      = JsDate.Day (19799 * JsDate.msPerDay + 1) /\
    0 < JsDate.TimeWithinDay (19799 * JsDate.msPerDay + 1))).
Proof.
  split; [reflexivity|].
  exact (overdueAt_from_due_date (19799 * JsDate.msPerDay + 1)
           secondLoanOfDune eq_refl).
Defined.

(** X8. In a zone with a single offset, a loan made at [today] for
    [borrowDuration] days is overdue exactly from the first millisecond
    after 00:00 UTC of the day that is [borrowDuration] days after the UTC
    day of [today]; so once [borrowDuration] times 24 hours have passed
    since the borrowing it is shown as overdue, unless it was made at
    00:00 UTC sharp. *)
Theorem new_loan_overdue_after_duration offset today stamp st :
  exists r,
    borrows (handleBorrow (JsDate.fixedZone offset) today stamp st)
      = r :: borrows st /\
    (forall now,
       overdueAt now r = true <->
       (JsDate.Day today + borrowDuration st) * JsDate.msPerDay < now) /\
    (0 < JsDate.TimeWithinDay today ->
     overdueAt (today + borrowDuration st * JsDate.msPerDay) r = true).
Proof.
  destruct (borrows_handleBorrow (JsDate.fixedZone offset) today stamp st)
    as [r [H1 [_ [_ [H2 [H3 [_ H5]]]]]]].
  rewrite setDate_fixedZone in H3. unfold JsDate.toISODate in H3.
  assert (forall now,
            overdueAt now r = true <->
            (JsDate.Day today + borrowDuration st) * JsDate.msPerDay < now)
    as Hiff.
  { intros now. unfold overdueAt, isActive. rewrite H5, H3. cbn [andb].
    unfold JsDate.parseISODate. apply Z.ltb_lt. }
  exists r. refine (conj H1 (conj Hiff _)).
  intros Hpos. apply Hiff.
  unfold JsDate.Day, JsDate.TimeWithinDay, JsDate.msPerDay in *.
  pose proof (Z.div_mod today 86400000 ltac:(lia)) as E.
  lia.
Qed.

(** X9. Whatever the time zone, as long as the offsets of local time at the
    borrowing and at the due instant differ by at most a day, the recorded
    due date is within one day of the borrow date plus the duration, and it
    is exactly that when the two offsets are equal. *)
Theorem handleBorrow_dueDate_within_a_day tz today stamp st :
  let due := JsDate.LocalTime tz today + borrowDuration st * JsDate.msPerDay in
  let shift := tz today true - tz due false in
  - JsDate.msPerDay <= shift <= JsDate.msPerDay ->
  exists r,
    borrows (handleBorrow tz today stamp st) = r :: borrows st /\
    Borrow.borrowDate r + borrowDuration st - 1 <= Borrow.dueDate r
      <= Borrow.borrowDate r + borrowDuration st + 1 /\
    (shift = 0 -> Borrow.dueDate r = Borrow.borrowDate r + borrowDuration st).
Proof.
  cbv zeta. intros Hshift.
  destruct (handleBorrow_record tz today stamp st)
    as [r [H1 [_ [_ [H2 H3]]]]].
  exists r. split; [exact H1|].
  rewrite H2, H3. clear H1 H2 H3.
  unfold JsDate.UTC, JsDate.LocalTime, JsDate.Day, JsDate.msPerDay in *.
  set (d := borrowDuration st) in *.
  set (o1 := tz today true) in *.
  set (o2 := tz (today + o1 + d * 86400000) false) in *.
  pose proof (Z.div_mod today 86400000 ltac:(lia)) as E1.
  pose proof (Z.mod_pos_bound today 86400000 ltac:(lia)) as B1.
  pose proof (Z.div_mod (today + o1 + d * 86400000 - o2) 86400000 ltac:(lia))
    as E2.
  pose proof (Z.mod_pos_bound (today + o1 + d * 86400000 - o2) 86400000
                ltac:(lia)) as B2.
  split; [lia|]. intros H0. lia.
Qed.

Lemma handleBorrow_dueDate_within_a_day_witness :
  let st := setBorrowForm true "u1" "1" 14 (library [dune 1 1] []) in
  let due := JsDate.LocalTime JsDate.newYork2024 eveningOfMarch1
             + borrowDuration st * JsDate.msPerDay in
  let shift := JsDate.newYork2024 eveningOfMarch1 true
               - JsDate.newYork2024 due false in
  - JsDate.msPerDay <= shift <= JsDate.msPerDay /\
  exists r,
    borrows (handleBorrow JsDate.newYork2024 eveningOfMarch1 500 st)
      = r :: borrows st /\
    Borrow.borrowDate r + borrowDuration st - 1 <= Borrow.dueDate r
      <= Borrow.borrowDate r + borrowDuration st + 1 /\
    (shift = 0 -> Borrow.dueDate r = Borrow.borrowDate r + borrowDuration st).
Proof.
  cbv zeta.
  assert (- JsDate.msPerDay
          <= JsDate.newYork2024 eveningOfMarch1 true
             - JsDate.newYork2024
                 (JsDate.LocalTime JsDate.newYork2024 eveningOfMarch1
                  + borrowDuration
                      (setBorrowForm true "u1" "1" 14 (library [dune 1 1] []))
                    * JsDate.msPerDay) false
          <= JsDate.msPerDay) as H
    by (vm_compute; split; discriminate).
  split; [exact H|].
  exact (handleBorrow_dueDate_within_a_day JsDate.newYork2024 eveningOfMarch1
           500 (setBorrowForm true "u1" "1" 14 (library [dune 1 1] [])) H).
Defined.

(* ------------------------------------------------------------------------- *)
(** ** The book list of the Book Manager *)

Lemma filter_all {A : Type} (f : A -> bool) (l : list A) :
  (forall x, In x l -> f x = true) -> List.filter f l = l.
Proof.
  intros H. apply forallb_filter_id. now apply forallb_forall.
Qed.

(** X10. With an empty search box the Book Manager lists every book and
    every member, and its "Available" filter lists exactly the books the
    borrow form of the Borrow Manager offers, in the same order. *)
Theorem empty_search_lists_everything st :
  filteredBooks "" "all" (books st) = books st /\
  filteredUsers "" (users st) = users st /\
  filteredBooks "" "available" (books st) = bookOptions st.
Proof.
  refine (conj _ (conj _ _)).
  - apply filter_all. intros b _. cbn. now rewrite includes_empty.
  - apply filter_all. intros u _. cbn. now rewrite includes_empty.
  - unfold filteredBooks, bookOptions. apply filter_ext. intros b.
    cbn. now rewrite includes_empty.
Qed.

(** X11. While the active loans of every book equal [totalCopies - count],
    the "Borrowed" filter of the Book Manager (with an empty search box)
    lists exactly the books that have an active loan. *)
Theorem borrowed_filter_lists_books_on_loan st b :
  loansMatchCounts st ->
  In b (books st) ->
  (In b (filteredBooks "" "borrowed" (books st)) <->
   0 < activeLoans (Book.id b) (borrows st)).
Proof.
  intros Hm Hb. specialize (Hm b Hb).
  unfold filteredBooks. rewrite filter_In. cbn.
  rewrite includes_empty. cbn. rewrite Z.ltb_lt. split.
  - intros [_ H]. lia.
  - intros H. split; [exact Hb | lia].
Qed.

Lemma borrowed_filter_lists_books_on_loan_witness :
  let st := library [dune 0 1; emma] [loanOfDune active None] in
  loansMatchCounts st /\ In (dune 0 1) (books st) /\
  (In (dune 0 1) (filteredBooks "" "borrowed" (books st)) <->
   0 < activeLoans 1 (borrows st)).
Proof.
  cbv zeta.
  assert (loansMatchCounts
            (library [dune 0 1; emma] [loanOfDune active None])) as Hm
    by (intros b [<- | [<- | []]]; reflexivity).
  assert (In (dune 0 1)
            (books (library [dune 0 1; emma] [loanOfDune active None])))
    as Hb by (left; reflexivity).
  refine (conj Hm (conj Hb _)).
  exact (borrowed_filter_lists_books_on_loan _ (dune 0 1) Hm Hb).
Defined.

(* ------------------------------------------------------------------------- *)
(** ** Adding, editing and deleting books, composed *)




(** X13. Adding a book under an identifier no listed book has, then
    deleting that identifier, gives back the books there were. *)
Theorem add_then_delete_restores_books tz thisYear stamp form st :
  freshStamp st (AddBook thisYear stamp form) = true ->
  books (run tz (DeleteBook stamp) (run tz (AddBook thisYear stamp form) st))
    = books st.
Proof.
  intros Hf. cbn in Hf. apply negb_true_iff in Hf.
  cbn [run handleDeleteBook handleAddBook books setBooks setBookForm formData].
  rewrite filter_app. cbn [List.filter Book.id]. rewrite Z.eqb_refl. cbn [negb].
  rewrite app_nil_r. apply filter_all. intros b Hb.
  apply negb_true_iff.
  destruct (Book.id b =? stamp) eqn:E; [|reflexivity].
  assert (existsb (fun b => Book.id b =? stamp) (books st) = true) as C
    by (apply existsb_exists; now exists b).
  congruence.
Qed.

Lemma add_then_delete_restores_books_witness :
  let st := library [dune 1 1; emma] [] in
  freshStamp st (AddBook 2024 1709000000000 (duneForm 3)) = true /\
  books (run JsDate.newYork2024 (DeleteBook 1709000000000)
           (run JsDate.newYork2024 (AddBook 2024 1709000000000 (duneForm 3)) st))
    = books st.
Proof.
  cbv zeta. split; [reflexivity|].
  exact (add_then_delete_restores_books JsDate.newYork2024 2024 1709000000000
           (duneForm 3) (library [dune 1 1; emma] []) eq_refl).
Defined.

(** X14. A book added with at least one copy is at once among the options
    of the borrow form: a borrow of it for any listed member and any
    duration from 1 to 30 days is offered. *)
Theorem added_book_can_be_borrowed tz thisYear stamp form today stamp' u days st :
  1 <= Form.count form ->
  In u (users st) ->
  1 <= days <= 30 ->
  let st' := run tz (AddBook thisYear stamp form) st in
  (exists b, In b (bookOptions st') /\ Book.id b = stamp /\
             Book.count b = Form.count form) /\
  offered st' (NewBorrow today stamp' (idToString (User.id u))
                 (Js.numberToString stamp) days) = true.
Proof.
  intros Hc Hu Hd. cbv zeta.
  set (nb := Book.mk stamp (Form.title form) (Form.author form)
               (Form.genre form) (Form.isbn form) (Form.year form)
               (Form.count form) (Form.count form)).
  assert (In nb (bookOptions (run tz (AddBook thisYear stamp form) st))) as Hin.
  { unfold bookOptions. apply filter_In. split.
    - cbn. apply in_or_app. right. now left.
    - cbn. apply Z.ltb_lt. lia. }
  split; [exists nb; auto|].
  cbn [offered]. rewrite !andb_true_iff. repeat split.
  - apply existsb_exists. exists nb. split; [exact Hin | apply String.eqb_refl].
  - apply existsb_exists. exists u. split; [exact Hu | apply String.eqb_refl].
  - apply Z.leb_le. lia.
  - apply Z.leb_le. lia.
Qed.

Lemma added_book_can_be_borrowed_witness :
  let st := library [emma] [] in
  let st' := run JsDate.newYork2024 (AddBook 2024 1709000000000 (duneForm 3)) st in
  1 <= Form.count (duneForm 3) /\ In ada (users st) /\ 1 <= 14 <= 30 /\
  offered st' (NewBorrow eveningOfMarch1 500 "u1" "1709000000000" 14) = true.
Proof.
  cbv zeta.
  assert (1 <= Form.count (duneForm 3)) as Hc by (cbn; lia).
  assert (In ada (users (library [emma] []))) as Hu by (left; reflexivity).
  assert (1 <= 14 <= 30) as Hd by lia.
  destruct (added_book_can_be_borrowed JsDate.newYork2024 2024 1709000000000
              (duneForm 3) eveningOfMarch1 500 ada 14 (library [emma] [])
              Hc Hu Hd) as [_ H].
  exact (conj Hc (conj Hu (conj Hd H))).
Defined.

(* ------------------------------------------------------------------------- *)
(** ** Counts along every offered action *)

Lemma map_id_bump_count (f : Book.t -> bool) (g : Book.t -> Z) (l : list Book.t) :
  map Book.id (map (fun b => if f b then Book.withCount b (g b) else b) l)
  = map Book.id l.
Proof.
  rewrite map_map. apply map_ext. intros b. now destruct (f b).
Qed.

Lemma countsNonNegative_step tz a st :
  offered st a = true ->
  freshStamp st a = true ->
  countsNonNegative st /\ distinctBookIds st ->
  countsNonNegative (run tz a st) /\ distinctBookIds (run tz a st).
Proof.
  intros Ho Hf [Hc Hnd].
  destruct a as [today stamp user book days | now i | thisYear stamp form
                | thisYear row form | k | stamp form].
  - (* a new borrow *)
    destruct (offered_borrow_inv _ _ _ _ _ _ Ho) as [b0 [Hb0 [Hc0 Hp]]].
    cbn [run]. unfold countsNonNegative, distinctBookIds.
    rewrite books_handleBorrow. cbn [selectedBook setBorrowForm books].
    rewrite Hp, map_id_bump_count. split; [|exact Hnd].
    intros b' Hb'. apply in_map_iff in Hb'. destruct Hb' as [b [<- Hb]].
    specialize (Hc b Hb). cbn [Js.numEq].
    destruct (Z.eqb_spec (Book.id b) (Book.id b0)) as [E|E]; [|exact Hc].
    assert (b = b0) as -> by (eapply NoDup_map_inj; eauto).
    cbn [Book.withCount Book.count]. lia.
  - (* a return *)
    cbn [run]. unfold countsNonNegative, distinctBookIds.
    destruct (find (fun b => Borrow.id b =? i) (borrows st)) as [r|] eqn:Hfind.
    + destruct (handleReturn_found now i st r Hfind) as [-> _].
      rewrite map_id_bump_count. split; [|exact Hnd].
      intros b' Hb'. apply in_map_iff in Hb'. destruct Hb' as [b [<- Hb]].
      specialize (Hc b Hb).
      destruct (Js.numEq (Book.id b) (Borrow.bookId r)); [|exact Hc].
      cbn [Book.withCount Book.count]. lia.
    + rewrite (handleReturn_missing now i st Hfind). now split.
  - (* a new book *)
    cbn in Ho, Hf. apply Z.leb_le in Ho. apply negb_true_iff in Hf.
    cbn [run]. unfold countsNonNegative, distinctBookIds.
    cbn [handleAddBook books setBooks setBookForm formData]. split.
    + intros b Hb. apply in_app_or in Hb. destruct Hb as [Hb | [<- | []]].
      * now apply Hc.
      * cbn. lia.
    + rewrite map_app. cbn [map Book.id].
      apply NoDup_app; [exact Hnd | repeat constructor; intros [] | ].
      intros x Hx [<- | []]. apply in_map_iff in Hx.
      destruct Hx as [b [E Hb]].
      assert (existsb (fun b => Book.id b =? stamp) (books st) = true) as C.
      { apply existsb_exists. exists b. split; [exact Hb | now apply Z.eqb_eq]. }
      congruence.
  - (* an edit *)
    cbn in Ho. destruct (nth_error (books st) row) as [book|] eqn:Hrow;
      [|discriminate]. apply Z.leb_le in Ho.
    destruct (books_edit tz thisYear row form st book Hrow) as [Hb _].
    unfold countsNonNegative, distinctBookIds. rewrite Hb. split.
    + intros b' Hb'. apply in_map_iff in Hb'. destruct Hb' as [b [<- Hin]].
      destruct (Book.id b =? Book.id book); [cbn; lia | now apply Hc].
    + rewrite map_map. erewrite map_ext; [exact Hnd|].
      intros b. now destruct (Book.id b =? Book.id book).
  - (* a deletion *)
    cbn. split.
    + intros b Hb. apply filter_In in Hb. apply Hc. tauto.
    + now apply NoDup_map_filter.
  - (* a new member *)
    now split.
Qed.

(** X15. From a state with distinct book identifiers in which no count is
    negative, whatever sequence of offered actions follows (borrows,
    returns, new books, edits, deletions, new members), no count becomes
    negative and the book identifiers stay distinct. *)
Theorem counts_never_negative tz st st' :
  reachable tz anyAction st st' ->
  countsNonNegative st ->
  distinctBookIds st ->
  countsNonNegative st' /\ distinctBookIds st'.
Proof.
  induction 1 as [st | st a st' _ Ho Hf _ IH]; intros Hc Hnd.
  - now split.
  - destruct (countsNonNegative_step tz a st Ho Hf (conj Hc Hnd)) as [H1 H2].
    now apply IH.
Qed.

Lemma counts_never_negative_witness :
  let st := library [dune 1 1] [] in
  let st' := runAll JsDate.newYork2024 lendEditReturn st in
  reachable JsDate.newYork2024 anyAction st st' /\
  countsNonNegative st /\ distinctBookIds st /\
  countsNonNegative st' /\ distinctBookIds st'.
Proof.
  cbv zeta.
  assert (reachable JsDate.newYork2024 anyAction (library [dune 1 1] [])
            (runAll JsDate.newYork2024 lendEditReturn (library [dune 1 1] [])))
    as Hr by (apply allOffered_reachable; reflexivity).
  assert (countsNonNegative (library [dune 1 1] [])) as Hc
    by (intros b [<- | []]; cbn; lia).
  assert (distinctBookIds (library [dune 1 1] [])) as Hnd.
  { unfold distinctBookIds. cbn. repeat constructor. intros []. }
  exact (conj Hr (conj Hc (conj Hnd
           (counts_never_negative _ _ _ Hr Hc Hnd)))).
Defined.

(** X16. Without edits and additions the upper bound holds too: from a
    state with distinct book and borrow identifiers in which every count is
    between 0 and [totalCopies] and the active loans of every book equal
    [totalCopies - count], every state reached through offered borrows,
    returns and book deletions has every count between 0 and
    [totalCopies]. *)
Theorem counts_in_range_without_edits tz st st' :
  reachable tz isLoanAction st st' ->
  countsInRange st ->
  distinctBookIds st ->
  loansMatchCounts st ->
  distinctBorrowIds st ->
  countsInRange st' /\ loansMatchCounts st'.
Proof.
  intros Hr H1 H2 H3 H4. split.
  - apply (countsInRange_reachable_loans tz st st' Hr). tauto.
  - now destruct (loan_invariants_reachable tz st st' Hr (conj H3 H4)).
Qed.

Lemma counts_in_range_without_edits_witness :
  let st := library [dune 1 1; emma] [] in
  let st' := runAll JsDate.newYork2024 lendReturnDelete st in
  reachable JsDate.newYork2024 isLoanAction st st' /\
  countsInRange st /\ distinctBookIds st /\
  loansMatchCounts st /\ distinctBorrowIds st /\
  countsInRange st' /\ loansMatchCounts st'.
Proof.
  cbv zeta.
  assert (reachable JsDate.newYork2024 isLoanAction
            (library [dune 1 1; emma] [])
            (runAll JsDate.newYork2024 lendReturnDelete
               (library [dune 1 1; emma] []))) as Hr
    by (apply allOffered_reachable; reflexivity).
  assert (countsInRange (library [dune 1 1; emma] [])) as H1
    by (intros b [<- | [<- | []]]; cbn; lia).
  assert (distinctBookIds (library [dune 1 1; emma] [])) as H2.
  { unfold distinctBookIds. cbn. repeat constructor; cbn; intuition lia. }
  assert (loansMatchCounts (library [dune 1 1; emma] [])) as H3
    by (intros b [<- | [<- | []]]; reflexivity).
  assert (distinctBorrowIds (library [dune 1 1; emma] [])) as H4
    by constructor.
  exact (conj Hr (conj H1 (conj H2 (conj H3 (conj H4
           (counts_in_range_without_edits _ _ _ Hr H1 H2 H3 H4)))))).
Defined.

(* ------------------------------------------------------------------------- *)
(** ** The figures of the dashboard *)

Lemma orZero_id (x : Z) : Dashboard.orZero x = x.
Proof. unfold Dashboard.orZero. destruct (Z.eqb_spec x 0); congruence. Qed.

Lemma fold_left_sumZ {A : Type} (f : A -> Z) (l : list A) (a : Z) :
  fold_left (fun acc x => acc + Dashboard.orZero (f x)) l a = a + sumZ f l.
Proof.
  revert a. induction l as [|x l IH]; intros a; simpl; [lia|].
  rewrite IH, orZero_id. lia.
Qed.

Lemma borrowedBooks_sum (bks : list Book.t) :
  Dashboard.borrowedBooks bks
  = sumZ (fun b => Book.totalCopies b - Book.count b) bks /\
  Dashboard.totalCopies bks = sumZ Book.totalCopies bks /\
  Dashboard.availableBooks bks = sumZ Book.count bks.
Proof.
  unfold Dashboard.borrowedBooks, Dashboard.totalCopies,
    Dashboard.availableBooks.
  rewrite !fold_left_sumZ. repeat split; try lia.
  induction bks as [|b l IH]; simpl in *; lia.
Qed.

(** The books with identifier [k]: at most one when identifiers are
    distinct. *)
Lemma sum_matching_ids (k : option Z) (bks : list Book.t) :
  NoDup (map Book.id bks) ->
  sumZ (fun b => if Js.numEq (Book.id b) k then 1 else 0) bks
  = if existsb (fun b => Js.numEq (Book.id b) k) bks then 1 else 0.
Proof.
  induction bks as [|b l IH]; intros Hnd; [reflexivity|].
  inversion Hnd as [|? ? Hnot Hnd']; subst. cbn [sumZ existsb].
  rewrite (IH Hnd').
  destruct (Js.numEq (Book.id b) k) eqn:E; [|reflexivity]. cbn [orb].
  destruct (existsb (fun b => Js.numEq (Book.id b) k) l) eqn:Ex; [|reflexivity].
  apply existsb_exists in Ex. destruct Ex as [b' [Hb' E']].
  destruct k as [k|]; [|discriminate]. cbn in E, E'.
  apply Z.eqb_eq in E, E'. elim Hnot. rewrite E, <- E'. now apply in_map.
Qed.

Lemma sum_activeLoans (bks : list Book.t) (brs : list Borrow.t) :
  NoDup (map Book.id bks) ->
  sumZ (fun b => activeLoans (Book.id b) brs) bks
  = Z.of_nat
      (List.length
         (List.filter
            (fun r => isActive r &&
                      existsb (fun b => Js.numEq (Book.id b) (Borrow.bookId r)) bks)
            brs)).
Proof.
  intros Hnd. induction brs as [|r l IH].
  - cbn. induction bks as [|b bks IHb]; [reflexivity|].
    inversion Hnd; subst. cbn [sumZ]. rewrite IHb by assumption. reflexivity.
  - transitivity
      (sumZ (fun b => if isActive r && Js.numEq (Book.id b) (Borrow.bookId r)
                      then 1 else 0) bks
       + sumZ (fun b => activeLoans (Book.id b) l) bks).
    + clear. induction bks as [|b bks IHb]; [reflexivity|].
      cbn [sumZ]. rewrite IHb, activeLoans_cons. lia.
    + rewrite IH. cbn [List.filter].
      destruct (isActive r) eqn:Ha; cbn [andb].
      * rewrite sum_matching_ids by exact Hnd.
        destruct (existsb _ bks); cbn [List.length]; lia.
      * replace (sumZ (fun _ : Book.t => 0) bks) with 0; [lia|].
        clear. induction bks; cbn; lia.
Qed.

Lemma sumZ_copies_range (bks : list Book.t) :
  (forall b, In b bks -> 0 <= Book.count b <= Book.totalCopies b) ->
  0 <= sumZ (fun b => Book.totalCopies b - Book.count b) bks
    <= sumZ Book.totalCopies bks.
Proof.
  induction bks as [|b l IH]; intros H; cbn [sumZ]; [lia|].
  pose proof (H b (or_introl eq_refl)).
  assert (forall x, In x l -> 0 <= Book.count x <= Book.totalCopies x) as Hl
    by (intros x Hx; apply H; now right).
  specialize (IH Hl). lia.
Qed.

Lemma sumZ_ext_in {A : Type} (f g : A -> Z) (l : list A) :
  (forall x, In x l -> f x = g x) -> sumZ f l = sumZ g l.
Proof.
  induction l as [|x l IH]; intros H; cbn [sumZ]; [reflexivity|].
  rewrite (H x) by now left.
  rewrite IH; [reflexivity|]. intros y Hy. apply H. now right.
Qed.

(** X17. The "borrowed" figure of the dashboard, [totalCopies] minus
    [availableBooks] summed over the books: while every count is between 0
    and [totalCopies] it is between 0 and the number of copies owned; and
    while in addition the active loans of every book equal
    [totalCopies - count] and book identifiers are distinct, it is the
    number of active loans that reference a listed book, so that an active
    loan of a deleted book is not counted. *)
Theorem dashboard_borrowedBooks st :
  countsInRange st ->
  0 <= Dashboard.borrowedBooks (books st) <= Dashboard.totalCopies (books st) /\
  (loansMatchCounts st -> distinctBookIds st ->
   Dashboard.borrowedBooks (books st)
   = Z.of_nat (List.length (loansOfListedBooks st))).
Proof.
  intros Hr.
  destruct (borrowedBooks_sum (books st)) as [Hb [Ht _]]. split.
  - rewrite Hb, Ht. now apply sumZ_copies_range.
  - intros Hm Hnd. rewrite Hb. unfold loansOfListedBooks.
    rewrite <- sum_activeLoans by exact Hnd.
    apply sumZ_ext_in. intros b Hin. symmetry. now apply Hm.
Qed.

Lemma dashboard_borrowedBooks_witness :
  let st := handleDeleteBook true 2
              (library [dune 0 1; emma]
                 [loanOfDune active None;
                  Borrow.mk 777 (Some 2) "u1" (Some "Ada Lovelace"%string)
                            19784 19798 None active]) in
  countsInRange st /\
  Dashboard.borrowedBooks (books st) = 1 /\
  List.length (List.filter isActive (borrows st)) = 2%nat.
Proof.
  cbv zeta.
  set (st := handleDeleteBook true 2
               (library [dune 0 1; emma]
                  [loanOfDune active None;
                   Borrow.mk 777 (Some 2) "u1" (Some "Ada Lovelace"%string)
                             19784 19798 None active])).
  assert (countsInRange st) as Hr by (intros b [<- | []]; cbn; lia).
  destruct (dashboard_borrowedBooks st Hr) as [_ H].
  refine (conj Hr (conj _ eq_refl)).
  rewrite H; [reflexivity | | ].
  - intros b [<- | []]. reflexivity.
  - unfold distinctBookIds. cbn. repeat constructor. intros [].
Defined.








(* ------------------------------------------------------------------------- *)
(** ** Members *)

Lemma jsIdEq_spec (a b : JsId) : jsIdEq a b = true <-> a = b.
Proof.
  destruct a as [m | s], b as [n | t]; cbn; split; try congruence.
  - intros H. apply Z.eqb_eq in H. congruence.
  - intros [= ->]. apply Z.eqb_refl.
  - intros H. apply String.eqb_eq in H. congruence.
  - intros [= ->]. apply String.eqb_refl.
Qed.

(** X19. A confirmed deletion of a member removes exactly the members with
    that identifier and touches nothing else: the books, the borrow records
    (active loans of the member included), the borrows list under any
    filter and the offered returns are what they were; and unless another
    member's identifier prints the same, no new borrow is offered for the
    deleted member. *)
Theorem handleDeleteUser_effect userId st :
  let st' := handleDeleteUser true userId st in
  (forall u, In u (users st') <-> In u (users st) /\ User.id u <> userId) /\
  books st' = books st /\ borrows st' = borrows st /\
  (forall now, filteredBorrows now st' = filteredBorrows now st) /\
  (forall now i, offered st' (ReturnBook now i) = offered st (ReturnBook now i)) /\
  ((forall u, In u (users st) ->
              idToString (User.id u) = idToString userId -> User.id u = userId) ->
   forall today stamp book days,
     offered st' (NewBorrow today stamp (idToString userId) book days) = false).
Proof.
  cbv zeta. refine (conj _ (conj eq_refl (conj eq_refl (conj _ (conj _ _))))).
  - intros u. cbn. rewrite filter_In, negb_true_iff.
    rewrite <- not_true_iff_false, jsIdEq_spec. tauto.
  - reflexivity.
  - reflexivity.
  - intros Hsame today stamp book days. cbn [offered].
    assert (existsb (fun u => String.eqb (idToString (User.id u))
                                         (idToString userId))
                    (users (handleDeleteUser true userId st)) = false) as ->.
    { destruct (existsb _ _) eqn:E; [|reflexivity].
      apply existsb_exists in E. destruct E as [u [Hu E]].
      apply String.eqb_eq in E. cbn in Hu. apply filter_In in Hu.
      destruct Hu as [Hu Hne]. apply negb_true_iff in Hne.
      rewrite (Hsame u Hu E) in Hne.
      assert (jsIdEq userId userId = true) by now apply jsIdEq_spec.
      congruence. }
    now rewrite andb_false_r.
Qed.


(* ------------------------------------------------------------------------- *)
(** ** The member name of a new record *)

Lemma find_idIsString_none (s : string) (us : list User.t) :
  find (fun u => idIsString (User.id u) s) us = None <->
  forall u, In u us -> User.id u <> IdStr s.
Proof.
  split.
  - intros H u Hu E. pose proof (find_none _ _ H u Hu) as C.
    cbn in C. rewrite E in C. cbn in C. rewrite String.eqb_refl in C.
    discriminate.
  - intros H. destruct (find _ us) as [u|] eqn:E; [|reflexivity].
    apply find_some in E. destruct E as [Hu E].
    destruct (User.id u) as [n | t] eqn:Hid; [discriminate|].
    cbn in E. apply String.eqb_eq in E. subst t. elim (H u Hu Hid).
Qed.

(** X21. The record of a borrow carries a member name exactly when some
    member's identifier is the string that was selected, and then it is the
    name of a member with that identifier; a member whose identifier is a
    number never gives its name to a record. *)
Theorem handleBorrow_userName tz today stamp st :
  exists r,
    borrows (handleBorrow tz today stamp st) = r :: borrows st /\
    Borrow.userId r = selectedUser st /\
    (Borrow.userName r = None <->
     forall u, In u (users st) -> User.id u <> IdStr (selectedUser st)) /\
    (forall n, Borrow.userName r = Some n ->
       exists u, In u (users st) /\ User.id u = IdStr (selectedUser st) /\
                 User.name u = n).
Proof.
  eexists. split; [reflexivity|]. cbn [Borrow.userId Borrow.userName].
  split; [reflexivity|]. split.
  - rewrite <- find_idIsString_none.
    destruct (find _ (users st)); cbn; split; congruence.
  - intros n Hn.
    destruct (find (fun u => idIsString (User.id u) (selectedUser st))
                   (users st)) as [u|] eqn:E; [|discriminate].
    apply find_some in E. destruct E as [Hu E]. exists u.
    cbn in Hn. injection Hn as <-.
    destruct (User.id u) as [m | t]; [discriminate|].
    cbn in E. apply String.eqb_eq in E. subst t. auto.
Qed.



(* ------------------------------------------------------------------------- *)
(** ** What a return leaves alone *)

(** X23. [handleReturn] never adds, removes or reorders a record or a
    book, never changes an identifier or a [totalCopies], and leaves the
    records with another identifier and the members as they are; when no
    record has the identifier it only sets the error message. *)
Theorem handleReturn_keeps_identities now i st :
  let st' := handleReturn now i st in
  map Borrow.id (borrows st') = map Borrow.id (borrows st) /\
  map (fun b => (Book.id b, Book.totalCopies b)) (books st')
    = map (fun b => (Book.id b, Book.totalCopies b)) (books st) /\
  users st' = users st /\
  (forall r, In r (borrows st) -> Borrow.id r <> i -> In r (borrows st')) /\
  ((forall r, In r (borrows st) -> Borrow.id r <> i) ->
   st' = setError "Failed to process return: Borrow record not found" st).
Proof.
  cbv zeta.
  destruct (find (fun b => Borrow.id b =? i) (borrows st)) as [r|] eqn:Hfind.
  - destruct (handleReturn_found now i st r Hfind) as [Hb [Hbr [Hu _]]].
    rewrite Hb, Hbr, Hu.
    refine (conj (map_id_markReturned _ _ _) (conj _ (conj eq_refl (conj _ _)))).
    + rewrite map_map. apply map_ext. intros b.
      now destruct (Js.numEq (Book.id b) (Borrow.bookId r)).
    + intros x Hx Hne. apply in_map_iff. exists x. split; [|exact Hx].
      destruct (Z.eqb_spec (Borrow.id x) i); [contradiction | reflexivity].
    + intros Hnone. apply find_some in Hfind. destruct Hfind as [Hr E].
      apply Z.eqb_eq in E. elim (Hnone r Hr E).
  - rewrite (handleReturn_missing now i st Hfind). repeat split; auto.
Qed.
